(** * Competitor pricing scraper and App Store review scraper

    A shallow embedding of [scripts/scrape_pricing.py] and
    [scripts/scrape_reviews.py], with the properties their specification
    states about them.

    Conventions.
    - Python [str] values are [string]s; one [ascii] stands for one character,
      with its code point: the text the model speaks of is text over the
      code points 0 to 255, and case, white space and digits are those
      Python gives these characters.
    - A Python [dict] with string keys is a [gmap string _]; a JSON object
      that is only read is an association list looked up from the left.
    - [try: ... except Exception as e] is a sum: [inl e] is the raised
      exception, [inr v] the value. *)

From Stdlib Require Import ZArith Ascii.
From Stdlib Require String.
From stdpp Require Import base option list gmap strings pretty.

Local Open Scope Z_scope.
Set Warnings "-register-all".

(** ** Python built-ins the two scripts call *)

Module Py.

(** [str.isspace] on one character, which is also the class [\s] and what
    [str.strip] removes: TAB..CR, FS..US, the space, NEL (133) and the
    no-break space (160). *)
Definition is_space (c : ascii) : bool :=
  let n := nat_of_ascii c in
  ((9 <=? n)%nat && (n <=? 13)%nat)
  || ((28 <=? n)%nat && (n <=? 32)%nat)
  || (n =? 133)%nat || (n =? 160)%nat.

(** The class [\d] and the digits [int()] reads: 0 to 9. *)
Definition is_digit (c : ascii) : bool :=
  let n := nat_of_ascii c in (48 <=? n)%nat && (n <=? 57)%nat.

(** The characters [str.lower] changes: A..Z and the capital letters from
    192 to 222 (215, the multiplication sign, is no letter). *)
Definition is_upper (c : ascii) : bool :=
  let n := nat_of_ascii c in
  ((65 <=? n)%nat && (n <=? 90)%nat)
  || ((192 <=? n)%nat && (n <=? 222)%nat && negb (n =? 215)%nat).

(** The letters A..Z and a..z. *)
Definition is_alpha (c : ascii) : bool :=
  let n := nat_of_ascii c in
  ((65 <=? n)%nat && (n <=? 90)%nat) || ((97 <=? n)%nat && (n <=? 122)%nat).

Definition lower_char (c : ascii) : ascii :=
  if is_upper c then ascii_of_nat (nat_of_ascii c + 32) else c.

(** [s.lower()] *)
Fixpoint lower (s : string) : string :=
  match s with
  | EmptyString => EmptyString
  | String c s' => String (lower_char c) (lower s')
  end.

Definition is_empty (s : string) : bool :=
  match s with EmptyString => true | String _ _ => false end.

(** [s.lstrip()], [s.rstrip()] and [s.strip()] without argument. *)
Fixpoint lstrip (s : string) : string :=
  match s with
  | EmptyString => EmptyString
  | String c s' => if is_space c then lstrip s' else s
  end.

Fixpoint rstrip (s : string) : string :=
  match s with
  | EmptyString => EmptyString
  | String c s' =>
      let r := rstrip s' in
      if is_space c && is_empty r then EmptyString else String c r
  end.

Definition strip (s : string) : string := rstrip (lstrip s).

(** [s.startswith(p)] *)
Fixpoint startswith (p s : string) : bool :=
  match p, s with
  | EmptyString, _ => true
  | String a p', String b s' => bool_decide (a = b) && startswith p' s'
  | String _ _, EmptyString => false
  end.

(** [needle in hay] for two strings. *)
Fixpoint contains (needle hay : string) : bool :=
  startswith needle hay
  || match hay with
     | EmptyString => false
     | String _ hay' => contains needle hay'
     end.

(** [s[:n]] for [n >= 0]. *)
Fixpoint slice_to (n : nat) (s : string) : string :=
  match n, s with
  | O, _ => EmptyString
  | S _, EmptyString => EmptyString
  | S n', String c s' => String c (slice_to n' s')
  end.

(** [l[:count]] on a list, for any integer [count]: a negative bound
    counts from the end. *)
Definition list_slice_to {A} (count : Z) (l : list A) : list A :=
  if 0 <=? count then take (Z.to_nat count) l
  else take (Z.to_nat (Z.of_nat (length l) + count)) l.

(** [dict(pairs)]: a later pair overrides an earlier one with its key. *)
Definition dict_of_pairs {V} (pairs : list (string * V)) : gmap string V :=
  foldl (fun d kv => <[kv.1 := kv.2]> d) ∅ pairs.

(** [list(set(l))]. The order in which Python walks a set of strings is
    not specified; the model walks it in the order of [elements]. *)
Definition list_of_set (l : list string) : list string :=
  elements (list_to_set l : gset string).

(** Exceptions (subclasses of [Exception]) and their [str()]. *)
Inductive exn :=
| URLError (reason : string)
| HTTPError (code : Z) (msg : string)
| AttributeError (type_name attr : string)
| OtherException (str : string).

Definition str_exn (e : exn) : string :=
  match e with
  | URLError reason => "<urlopen error " +:+ reason +:+ ">"
  | HTTPError code msg => "HTTP Error " +:+ pretty code +:+ ": " +:+ msg
  | AttributeError ty attr =>
      "'" +:+ ty +:+ "' object has no attribute '" +:+ attr +:+ "'"
  | OtherException str => str
  end.

Definition result (A : Type) : Type := exn + A.
Definition ret {A} (x : A) : result A := inr x.
Definition raise {A} (e : exn) : result A := inl e.
Definition bind {E A B} (m : E + A) (k : A -> E + B) : E + B :=
  match m with inl e => inl e | inr x => k x end.

End Py.

Notation "x <-! m ; k" := (Py.bind m (fun x => k))
  (at level 100, m at next level, right associativity, only parsing).

(** ** The fragment of Python's [re] the three price patterns use

    A backtracking matcher in the order [re] tries alternatives: the left
    branch of [|] first, one more repetition before stopping ([+], [*] and [?]
    are greedy). Only classes of single characters are repeated, as in the
    patterns of the script, so the matcher is structural. *)

Module Re.

Inductive regex :=
| Lit (c : ascii)                (* a literal character *)
| Digit                          (* \d *)
| Space                          (* \s *)
| Eps                            (* the empty pattern *)
| Seq (r1 r2 : regex)            (* r1 r2 *)
| Alt (r1 r2 : regex)            (* r1|r2 *)
| Opt (r : regex)                (* (?:r)? *)
| StarDigit                      (* \d* *)
| StarSpace.                     (* \s* *)

(** The characters of a literal string, in sequence. *)
Fixpoint Str (s : string) : regex :=
  match s with
  | EmptyString => Eps
  | String c s' => Seq (Lit c) (Str s')
  end.

(** \d+ *)
Definition PlusDigit : regex := Seq Digit StarDigit.

(** A literal under [re.IGNORECASE] matches both cases of a letter. *)
Definition lit_matches (ignorecase : bool) (c d : ascii) : bool :=
  if ignorecase then bool_decide (Py.lower_char c = Py.lower_char d)
  else bool_decide (c = d).

(** Greedy repetition of a character class: as many characters as
    possible, giving them back one by one while the rest fails. *)
Fixpoint star_class {A} (cls : ascii -> bool) (s : string)
    (k : string -> option A) : option A :=
  match s with
  | String c s' =>
      if cls c then
        match star_class cls s' k with
        | Some x => Some x
        | None => k s
        end
      else k s
  | EmptyString => k s
  end.

(** [matches ic r s k]: match [r] at the start of [s] and hand the rest
    of the text to [k]; the first success in backtracking order wins. *)
Fixpoint matches {A} (ic : bool) (r : regex) (s : string)
    (k : string -> option A) : option A :=
  match r with
  | Lit c =>
      match s with
      | String d s' => if lit_matches ic c d then k s' else None
      | EmptyString => None
      end
  | Digit =>
      match s with
      | String d s' => if Py.is_digit d then k s' else None
      | EmptyString => None
      end
  | Space =>
      match s with
      | String d s' => if Py.is_space d then k s' else None
      | EmptyString => None
      end
  | Eps => k s
  | Seq r1 r2 => matches ic r1 s (fun s' => matches ic r2 s' k)
  | Alt r1 r2 =>
      match matches ic r1 s k with
      | Some x => Some x
      | None => matches ic r2 s k
      end
  | Opt r1 =>
      match matches ic r1 s k with
      | Some x => Some x
      | None => k s
      end
  | StarDigit => star_class Py.is_digit s k
  | StarSpace => star_class Py.is_space s k
  end.

(** [pattern.match(s)]: the text matched at the start of [s]. *)
Definition match_prefix (ic : bool) (r : regex) (s : string) : option string :=
  rest ← matches ic r s Some;
  Some (Py.slice_to (String.length s - String.length rest) s).

(** [re.findall] for a pattern without capturing groups: the matches from
    left to right, without overlap. After a match of [n] characters the
    scan resumes behind it: [skip] counts the characters still to pass
    over. An empty match is recorded and the scan moves on by one. *)
Fixpoint findall_from (ic : bool) (r : regex) (skip : nat) (s : string)
    : list string :=
  match skip with
  | S skip' =>
      match s with
      | String _ s' => findall_from ic r skip' s'
      | EmptyString => []
      end
  | O =>
      match match_prefix ic r s with
      | Some m =>
          m :: match s with
               | String _ s' => findall_from ic r (String.length m - 1) s'
               | EmptyString => []
               end
      | None =>
          match s with
          | String _ s' => findall_from ic r O s'
          | EmptyString => []
          end
      end
  end.

Definition findall (ic : bool) (r : regex) (s : string) : list string :=
  findall_from ic r O s.

End Re.

(** ** scrape_pricing.py: the tag-based extractor *)

Module Pricing.
Import Re.

(** The callbacks [html.parser.HTMLParser.feed] issues. An attribute
    written without a value ([<div class>]) has the value [None]. *)
Inductive html_event :=
| StartTag (tag : string) (attrs : list (string * option string))
| EndTag (tag : string)
| Data (data : string).

(** The instance attributes of [PricingParser]. *)
Record parser := mk_parser {
  in_price : bool;
  prices : list string;
  current_text : string
}.

(** [PricingParser.__init__] *)
Definition init : parser :=
  {| in_price := false; prices := []; current_text := "" |}.

Definition price_keywords : list string :=
  ["price"; "cost"; "amount"; "plan"; "tier"].

(** [handle_starttag]. [attrs_dict.get("class", "")] is [None] for a
    class attribute without value, and [None.lower()] raises. *)
Definition handle_starttag (self : parser) (tag : string)
    (attrs : list (string * option string)) : Py.result parser :=
  let attrs_dict := Py.dict_of_pairs attrs in
  match default (Some ""%string) (attrs_dict !! "class") with
  | None => Py.raise (Py.AttributeError "NoneType" "lower")
  | Some class_name =>
      if existsb (fun keyword => Py.contains keyword (Py.lower class_name))
                 price_keywords
      then Py.ret {| in_price := true;
                     prices := prices self;
                     current_text := current_text self |}
      else Py.ret self
  end.

(** [handle_endtag] *)
Definition handle_endtag (self : parser) (tag : string) : parser :=
  let prices' :=
    if in_price self && negb (Py.is_empty (Py.strip (current_text self)))
    then prices self ++ [Py.strip (current_text self)]
    else prices self in
  {| in_price := false; prices := prices'; current_text := "" |}.

(** [handle_data] *)
Definition handle_data (self : parser) (data : string) : parser :=
  if in_price self
  then {| in_price := in_price self;
          prices := prices self;
          current_text := current_text self +:+ data |}
  else self.

Definition handle (self : parser) (ev : html_event) : Py.result parser :=
  match ev with
  | StartTag tag attrs => handle_starttag self tag attrs
  | EndTag tag => Py.ret (handle_endtag self tag)
  | Data data => Py.ret (handle_data self data)
  end.

(** [parser.feed(html)], seen from the handlers: the callbacks run in
    document order, and an exception in one of them ends the feed. *)
Fixpoint feed (self : parser) (evs : list html_event) : Py.result parser :=
  match evs with
  | [] => Py.ret self
  | ev :: evs' => self' <-! handle self ev; feed self' evs'
  end.

(** *** scrape_pricing_page *)

(** The values a result dictionary holds. *)
Inductive value :=
| VStr (s : string)
| VInt (n : Z)
| VBool (b : bool)
| VList (l : list string).

(** [price_patterns], in the order of the list:
    [\$\d+(?:\.\d{2})?(?:/mo(?:nth)?)?],
    [\$\d+(?:\.\d{2})?\s*(?:per|/)\s*(?:month|year|team|user)] and
    [(?:free|Free|FREE)]. *)
Definition dollar_amount : regex :=
  Seq (Lit "$") (Seq PlusDigit (Opt (Seq (Lit ".") (Seq Digit Digit)))).

Definition price_patterns : list regex :=
  [ Seq dollar_amount (Opt (Seq (Str "/mo") (Opt (Str "nth"))));
    Seq dollar_amount
      (Seq StarSpace
        (Seq (Alt (Str "per") (Str "/"))
          (Seq StarSpace
            (Alt (Str "month") (Alt (Str "year") (Alt (Str "team") (Str "user")))))));
    Alt (Str "free") (Alt (Str "Free") (Str "FREE")) ].

(** The loop over [price_patterns]: [regex_prices.extend(matches)] with
    [re.IGNORECASE] for each pattern in turn. *)
Definition regex_prices (html : string) : list string :=
  foldl (fun acc pattern => acc ++ findall true pattern html) [] price_patterns.

(** [list(set(parser.prices + regex_prices))] *)
Definition combine_prices (tag_prices regex_found : list string) : list string :=
  Py.list_of_set (tag_prices ++ regex_found).

(** [parser.feed(html)] as a whole: the callbacks are handled in order, an
    exception of a handler ends the feed, and after the last callback the
    exception of the tokenizer, if there is one, is raised. *)
Definition feed_html (self : parser) (run : list html_event * option Py.exn)
    : Py.result parser :=
  self' <-! feed self run.1;
  match run.2 with
  | Some e => Py.raise e
  | None => Py.ret self'
  end.

Section ScrapePricingPage.

(** The request: [Request], [urlopen], [read] and [decode] together
    either raise or deliver the text of the page. *)
Variable urlopen : string -> Py.result string.

(** What [HTMLParser.feed] does on a text: the callbacks it issues, in
    order, and the exception the tokenizer itself raises after them, if it
    raises one. *)
Variable html_callbacks : string -> list html_event * option Py.exn.

(** The body of the [try] block. *)
Definition scrape_body (url : string) : Py.result (gmap string value) :=
  html <-! urlopen url;
  parser <-! feed_html init (html_callbacks html);
  let all_prices := combine_prices (prices parser) (regex_prices html) in
  Py.ret ({[ "url" := VStr url;
             "prices_found" := VList all_prices;
             "raw_html_length" := VInt (Z.of_nat (String.length html));
             "success" := VBool true ]} : gmap string value).

Definition scrape_pricing_page (url : string) : gmap string value :=
  match scrape_body url with
  | inr result => result
  | inl e =>
      {[ "url" := VStr url;
         "prices_found" := VList [];
         "error" := VStr (Py.str_exn e);
         "success" := VBool false ]}
  end.

End ScrapePricingPage.

End Pricing.

(** ** The callbacks of [html.parser] on plain markup

    [HTMLParser.feed] belongs to Python's library. [html_events] computes its
    callbacks for plain markup only: start tags [<name attr="value" attr>],
    end tags [</name>] and text, without character references, comments,
    declarations or raw-text elements. On anything else it answers [None]. *)

Module Markup.
Import Pricing.

Definition is_char (a c : ascii) : bool := bool_decide (a = c).

(** The character that delimits an attribute value. *)
Definition double_quote : ascii := ascii_of_nat 34.

Definition is_alnum (c : ascii) : bool := Py.is_alpha c || Py.is_digit c.

Definition is_attr_char (c : ascii) : bool := is_alnum c || is_char "-" c.

(** The longest prefix of characters satisfying [keep], and the rest. *)
Fixpoint span (keep : ascii -> bool) (s : string) : string * string :=
  match s with
  | EmptyString => (EmptyString, EmptyString)
  | String c s' =>
      if keep c
      then let '(a, b) := span keep s' in (String c a, b)
      else (EmptyString, s)
  end.

Definition is_name (s : string) : bool :=
  match s with
  | EmptyString => false
  | String c _ => Py.is_alpha c
  end.

(** Elements whose content the tokenizer does not split into tags. *)
Definition raw_text_elements : list string :=
  ["script"; "style"; "textarea"; "title"; "plaintext"; "xmp"; "iframe";
   "noembed"; "noframes"; "noscript"].

Definition plain_value_char (c : ascii) : bool :=
  negb (is_char double_quote c || is_char "&" c || is_char "<" c || is_char ">" c).

(** The attributes of a start tag, up to and including its [>]. *)
Fixpoint attributes (fuel : nat) (s : string)
    : option (list (string * option string) * string) :=
  match fuel with
  | O => None
  | S fuel' =>
      match s with
      | String c r =>
          if is_char ">" c then Some ([], r)
          else if is_char " " c then
            let '(_, r1) := span (is_char " ") r in
            let '(name, r2) := span is_attr_char r1 in
            if is_name name then
              match r2 with
              | String e (String q r3) =>
                  if is_char "=" e && is_char double_quote q then
                    let '(value, r4) := span plain_value_char r3 in
                    match r4 with
                    | String q' r5 =>
                        if is_char double_quote q' then
                          '(attrs, rest) ← attributes fuel' r5;
                          Some ((Py.lower name, Some value) :: attrs, rest)
                        else None
                    | EmptyString => None
                    end
                  else
                    '(attrs, rest) ← attributes fuel' r2;
                    Some ((Py.lower name, None) :: attrs, rest)
              | _ =>
                  '(attrs, rest) ← attributes fuel' r2;
                  Some ((Py.lower name, None) :: attrs, rest)
              end
            else
              match r1 with
              | String g rest => if is_char ">" g then Some ([], rest) else None
              | EmptyString => None
              end
          else None
      | EmptyString => None
      end
  end.

Definition text_char (c : ascii) : bool :=
  negb (is_char "<" c || is_char "&" c).

Fixpoint html_events_fuel (fuel : nat) (s : string)
    : option (list html_event) :=
  match fuel with
  | O => None
  | S fuel' =>
      match s with
      | EmptyString => Some []
      | String c r =>
          if is_char "<" c then
            match r with
            | String d r' =>
                if is_char "/" d then
                  let '(name, r1) := span is_alnum r' in
                  match r1 with
                  | String g r2 =>
                      if is_name name && is_char ">" g
                      then evs ← html_events_fuel fuel' r2;
                           Some (EndTag (Py.lower name) :: evs)
                      else None
                  | EmptyString => None
                  end
                else
                  let '(name, r1) := span is_alnum r in
                  if is_name name
                     && negb (bool_decide (Py.lower name ∈ raw_text_elements))
                  then '(attrs, r2) ← attributes (S (String.length r1)) r1;
                       evs ← html_events_fuel fuel' r2;
                       Some (StartTag (Py.lower name) attrs :: evs)
                  else None
            | EmptyString => None
            end
          else if is_char "&" c then None
          else
            let '(text, r1) := span text_char s in
            evs ← html_events_fuel fuel' r1;
            Some (Data text :: evs)
      end
  end.

Definition html_events (s : string) : option (list html_event) :=
  html_events_fuel (S (String.length s)) s.

(** The markup of the nested example. *)
Definition nested_price_markup : string :=
  "<span class=" +:+ String double_quote "price"
    +:+ String double_quote "><b>$10</b></span>".

End Markup.

(** ** scrape_reviews.py *)

Module Reviews.

(** *** The values [json.loads] builds *)

(** A Python [float]: not a number, an infinity, or the finite value
    [m * 2^e]. *)
Inductive pyfloat :=
| FNaN
| FInf (negative : bool)
| FFinite (m e : Z).

(** A JSON object is the list of its items, with distinct keys. *)
Inductive json :=
| JNull
| JBool (b : bool)
| JInt (n : Z)
| JFloat (x : pyfloat)
| JStr (s : string)
| JList (l : list json)
| JDict (items : list (string * json)).

Fixpoint lookup_item (key : string) (items : list (string * json)) : option json :=
  match items with
  | [] => None
  | (k, v) :: rest => if bool_decide (k = key) then Some v else lookup_item key rest
  end.

(** What the [try] block of [scrape_apple_reviews] can raise: the request
    or [json.loads] fails, [.get] is called on a value that is no [dict],
    [int()] refuses its argument, or [entries] cannot be sliced. *)
Inductive failure :=
| FetchFailed (e : Py.exn)
| NoGetMethod (v : json)
| IntRefused (v : json)
| NotSliceable (v : json).

(** [v.get(key, default)] *)
Definition get (v : json) (key : string) (default_value : json) : failure + json :=
  match v with
  | JDict items => inr (default default_value (lookup_item key items))
  | _ => inl (NoGetMethod v)
  end.

(** [isinstance(v, dict) and key in v] *)
Definition is_dict_with (key : string) (v : json) : bool :=
  match v with
  | JDict items => bool_decide (is_Some (lookup_item key items))
  | _ => false
  end.

(** The digits of an integer literal, with single underscores between
    digits; [seen] tells that the previous character was a digit. *)
Fixpoint digits_value (acc : Z) (seen : bool) (s : string) : option Z :=
  match s with
  | EmptyString => if seen then Some acc else None
  | String c s' =>
      if Py.is_digit c
      then digits_value (10 * acc + (Z.of_nat (nat_of_ascii c) - 48)) true s'
      else if bool_decide (c = "_"%char) && seen
      then digits_value acc false s'
      else None
  end.

(** The white space [int()] passes over at both ends of a string: TAB..CR
    and the space, and the white space beyond the ASCII range (here NEL and
    the no-break space), which it first turns into spaces. The separators
    FS..US are not among it. *)
Definition is_int_space (c : ascii) : bool :=
  let n := nat_of_ascii c in
  ((9 <=? n)%nat && (n <=? 13)%nat) || (n =? 32)%nat
  || (n =? 133)%nat || (n =? 160)%nat.

Fixpoint int_lstrip (s : string) : string :=
  match s with
  | EmptyString => EmptyString
  | String c s' => if is_int_space c then int_lstrip s' else s
  end.

Fixpoint int_rstrip (s : string) : string :=
  match s with
  | EmptyString => EmptyString
  | String c s' =>
      let r := int_rstrip s' in
      if is_int_space c && Py.is_empty r then EmptyString else String c r
  end.

(** The number of digits in a literal. *)
Fixpoint digit_count (s : string) : nat :=
  match s with
  | EmptyString => O
  | String c s' => if Py.is_digit c then S (digit_count s') else digit_count s'
  end.

(** [sys.get_int_max_str_digits()], as the interpreter starts with. *)
Definition max_str_digits : nat := 4300.

(** [int(s)] for a string, base 10: white space at both ends, an optional
    sign, then digits, of which there may be at most [max_str_digits]. *)
Definition int_of_string (s : string) : option Z :=
  let literal :=
    match int_rstrip (int_lstrip s) with
    | String c r =>
        if bool_decide (c = "+"%char) || bool_decide (c = "-"%char)
        then (bool_decide (c = "-"%char), r)
        else (false, String c r)
    | EmptyString => (false, EmptyString)
    end in
  if (max_str_digits <? digit_count literal.2)%nat then None
  else
    value ← digits_value 0 false literal.2;
    Some (if literal.1 then - value else value).

(** [int(x)] for a float: truncation towards zero. *)
Definition int_of_float (x : pyfloat) : option Z :=
  match x with
  | FFinite m e => Some (if 0 <=? e then m * 2 ^ e else Z.quot m (2 ^ (- e)))
  | _ => None
  end.

(** [int(v)] *)
Definition int (v : json) : failure + Z :=
  match v with
  | JInt n => inr n
  | JBool b => inr (if b then 1 else 0)
  | JFloat x => from_option inr (inl (IntRefused v)) (int_of_float x)
  | JStr s => from_option inr (inl (IntRefused v)) (int_of_string s)
  | _ => inl (IntRefused v)
  end.

(** *** scrape_apple_reviews *)

(** A normalized review, as [scrape_apple_reviews] builds it. *)
Record scraped_review := mk_scraped {
  s_rating : Z;
  s_title : json;
  s_content : json;
  s_author : json;
  s_version : json
}.

(** The dictionary display of the loop body, its items evaluated in
    order. *)
Definition normalize (entry : json) : failure + scraped_review :=
  rating_field <-! get entry "im:rating" (JDict []);
  rating_label <-! get rating_field "label" (JInt 0);
  rating <-! int rating_label;
  title_field <-! get entry "title" (JDict []);
  title <-! get title_field "label" (JStr "");
  content_field <-! get entry "content" (JDict []);
  content <-! get content_field "label" (JStr "");
  author_field <-! get entry "author" (JDict []);
  author_name <-! get author_field "name" (JDict []);
  author <-! get author_name "label" (JStr "");
  version_field <-! get entry "im:version" (JDict []);
  version <-! get version_field "label" (JStr "");
  inr {| s_rating := rating; s_title := title; s_content := content;
         s_author := author; s_version := version |}.

(** [for entry in ...: if isinstance(entry, dict) and "content" in entry:
    reviews.append({...})] *)
Fixpoint normalize_entries (entries : list json) (reviews : list scraped_review)
    : failure + list scraped_review :=
  match entries with
  | [] => inr reviews
  | entry :: rest =>
      if is_dict_with "content" entry
      then review <-! normalize entry;
           normalize_entries rest (reviews ++ [review])
      else normalize_entries rest reviews
  end.

(** [entries[:count]], ready to be iterated: a list gives its first
    entries, a string its first characters, nothing else can be sliced. *)
Definition slice_entries (entries : json) (count : Z) : failure + list json :=
  match entries with
  | JList l => inr (Py.list_slice_to count l)
  | JStr s =>
      inr ((fun c => JStr (String c EmptyString))
             <$> Py.list_slice_to count (String.list_ascii_of_string s))
  | _ => inl (NotSliceable entries)
  end.

(** [data.get("feed", {}).get("entry", [])] *)
Definition feed_entries (data : json) : failure + json :=
  feed <-! get data "feed" (JDict []);
  get feed "entry" (JList []).

(** What the function prints. *)
Inductive console_line :=
| ErrorScrapingReviews (e : failure).

Definition feed_url (app_id country : string) : string :=
  "https://itunes.apple.com/" +:+ country +:+ "/rss/customerreviews/id="
    +:+ app_id +:+ "/sortBy=mostRecent/json".

Section ScrapeAppleReviews.

(** [urlopen], [read], [decode] and [json.loads] together either raise
    or deliver the parsed document. *)
Variable fetch_json : string -> Py.result json.

(** The body of the [try] block. *)
Definition scrape_body (app_id country : string) (count : Z)
    : failure + list scraped_review :=
  data <-! match fetch_json (feed_url app_id country) with
           | inl e => inl (FetchFailed e)
           | inr data => inr data
           end;
  entries <-! feed_entries data;
  first_entries <-! slice_entries entries count;
  normalize_entries first_entries [].

(** The reviews returned and the lines printed. *)
Definition scrape_apple_reviews (app_id country : string) (count : Z)
    : list scraped_review * list console_line :=
  match scrape_body app_id country count with
  | inr reviews => (reviews, [])
  | inl e => ([], [ErrorScrapingReviews e])
  end.

End ScrapeAppleReviews.

(** *** analyze_reviews *)

(** A review handed to [analyze_reviews]: a dictionary in which any key
    may be missing; a key that is present holds a value of the type the
    data model gives it. *)
Record review := mk_review {
  rating : option Z;
  title : option string;
  content : option string;
  author : option string;
  version : option string
}.

(** [average_rating] is the integer [0] of the initial dictionary or the
    value of the expression [round(total / n, 2)], which is kept as
    written: [Round2 total n] stands for what Python makes of it, the
    rounded float or, for a quotient beyond the range of a float, the
    [OverflowError] of the division. *)
Inductive number :=
| Int (n : Z)
| Round2 (total : Z) (n : Z).

Record analysis := mk_analysis {
  total_reviews : Z;
  average_rating : number;
  rating_distribution : gmap Z Z;
  common_complaints : list string;
  common_praises : list string;
  feature_requests : list string
}.

Definition complaint_keywords : list string :=
  ["slow"; "crash"; "bug"; "expensive"; "confusing"; "difficult"; "broken";
   "poor"; "terrible"; "worst"].
Definition praise_keywords : list string :=
  ["love"; "great"; "amazing"; "easy"; "best"; "perfect"; "excellent";
   "awesome"].
Definition feature_keywords : list string :=
  ["wish"; "would be nice"; "please add"; "need"; "should have"; "missing"].

(** The dictionary [analysis] as first built. *)
Definition initial_analysis (reviews : list review) : analysis :=
  {| total_reviews := Z.of_nat (length reviews);
     average_rating := Int 0;
     rating_distribution := {[ 1 := 0; 2 := 0; 3 := 0; 4 := 0; 5 := 0 ]};
     common_complaints := [];
     common_praises := [];
     feature_requests := [] |}.

(** One round of the first loop: the running total and the distribution. *)
Definition count_rating (acc : Z * gmap Z Z) (r : review) : Z * gmap Z Z :=
  let '(total_rating, distribution) := acc in
  let rating := default 0 (rating r) in
  (total_rating + rating,
   match distribution !! rating with
   | Some n => <[rating := n + 1]> distribution
   | None => distribution
   end).

(** [review.get("content", "")[:200]] *)
Definition excerpt (r : review) : string :=
  Py.slice_to 200 (default ""%string (content r)).

(** [(review.get("content", "") + " " + review.get("title", "")).lower()] *)
Definition haystack (r : review) : string :=
  Py.lower (default ""%string (content r) +:+ " " +:+ default ""%string (title r)).

(** The three inner loops; [append] followed by [break] ends the loop. *)
Fixpoint complaint_loop (keywords : list string) (text : string) (r : review)
    (complaints : list string) : list string :=
  match keywords with
  | [] => complaints
  | keyword :: rest =>
      if Py.contains keyword text && (default 5 (rating r) <=? 3)
      then complaints ++ [excerpt r]
      else complaint_loop rest text r complaints
  end.

Fixpoint praise_loop (keywords : list string) (text : string) (r : review)
    (praises : list string) : list string :=
  match keywords with
  | [] => praises
  | keyword :: rest =>
      if Py.contains keyword text && (4 <=? default 0 (rating r))
      then praises ++ [excerpt r]
      else praise_loop rest text r praises
  end.

Fixpoint feature_loop (keywords : list string) (text : string) (r : review)
    (features : list string) : list string :=
  match keywords with
  | [] => features
  | keyword :: rest =>
      if Py.contains keyword text
      then features ++ [excerpt r]
      else feature_loop rest text r features
  end.

(** The lists [complaints], [praises] and [features]. *)
Record themes := mk_themes {
  complaints : list string;
  praises : list string;
  features : list string
}.

(** One round of the second loop. *)
Definition categorize (acc : themes) (r : review) : themes :=
  let text := haystack r in
  {| complaints := complaint_loop complaint_keywords text r (complaints acc);
     praises := praise_loop praise_keywords text r (praises acc);
     features := feature_loop feature_keywords text r (features acc) |}.

Definition analyze_reviews (reviews : list review) : analysis :=
  let start := initial_analysis reviews in
  match reviews with
  | [] => start
  | _ :: _ =>
      let '(total_rating, distribution) :=
        foldl count_rating (0, rating_distribution start) reviews in
      let found := foldl categorize (mk_themes [] [] []) reviews in
      {| total_reviews := total_reviews start;
         average_rating := Round2 total_rating (Z.of_nat (length reviews));
         rating_distribution := distribution;
         common_complaints := take 10 (complaints found);
         common_praises := take 10 (praises found);
         feature_requests := take 10 (features found) |}
  end.

End Reviews.

(** ** The command lines of the two scripts *)

Module Cli.

(** [argparse] leaves an option that was not given at [None]; [if x:] holds
    for a string that is given and not empty. *)
Definition given (x : option string) : option string :=
  match x with
  | Some s => if Py.is_empty s then None else Some s
  | None => None
  end.

(** A dictionary display of strings, in the order it is written. *)
Fixpoint dict_get (key : string) (items : list (string * string)) : option string :=
  match items with
  | [] => None
  | (k, v) :: rest => if bool_decide (k = key) then Some v else dict_get key rest
  end.

(** How the script ends: it runs to its end or calls [exit] (a status), or
    an exception leaves the program. *)
Inductive ending :=
| Exit (status : Z)
| Uncaught (e : Py.exn).

(** The exit status of the process: that of [exit], 0 when the script runs
    to its end, and 1 when an exception leaves the program (the interpreter
    prints the traceback and ends with status 1). *)
Definition status (e : ending) : Z :=
  match e with
  | Exit n => n
  | Uncaught _ => 1
  end.

End Cli.

Module PricingCLI.
Import Pricing Cli.

Definition COMPETITOR_URLS : list (string * string) :=
  [("teamsnap", "https://www.teamsnap.com/pricing");
   ("sportsengine", "https://www.sportsengine.com/solutions/team-management");
   ("gamechanger", "https://gc.com/pricing")]%string.

(** The namespace [parse_args] returns. *)
Record args := mk_args {
  url : option string;
  competitor : option string;
  all : bool;
  output : option string
}.

(** The dictionary [output]. *)
Record document := mk_document {
  scraped_at : string;
  results : list (gmap string value)
}.

(** What the script does to the outside: a line printed, the document
    printed as JSON, the document written as JSON to a file. *)
Inductive effect :=
| Print (line : string)
| PrintJson (doc : document)
| WriteJson (path : string) (doc : document).

Section Main.

Variable urlopen : string -> Py.result string.
Variable html_callbacks : string -> list html_event * option Py.exn.

(** [datetime.now().isoformat()] *)
Variable now : string.

(** [open(path, "w")]: the exception it raises, if it does. *)
Variable open_for_writing : string -> option Py.exn.

(** [result = scrape_pricing_page(url); result["competitor"] = name] *)
Definition scrape_named (name url : string) : gmap string value :=
  <["competitor" := VStr name]> (scrape_pricing_page urlopen html_callbacks url).

(** The loop of [--all] over [COMPETITOR_URLS.items()]. *)
Fixpoint scrape_all (items : list (string * string))
    (console : list effect) (found : list (gmap string value))
    : list effect * list (gmap string value) :=
  match items with
  | [] => (console, found)
  | (name, url) :: rest =>
      scrape_all rest
        (console ++ [Print ("  Scraping " +:+ name +:+ "...")])
        (found ++ [scrape_named name url])
  end.

(** The chain of [if args.all: ... elif args.url: ... elif args.competitor:
    ... else: ...]; the list is [None] where the script calls [exit(1)]. *)
Definition select (a : args) : list effect * option (list (gmap string value)) :=
  if all a then
    let '(console, found) :=
      scrape_all COMPETITOR_URLS [Print "Scraping all competitors..."] [] in
    (console, Some found)
  else
    match given (url a) with
    | Some u =>
        ([Print ("Scraping " +:+ u +:+ "...")],
         Some [scrape_pricing_page urlopen html_callbacks u])
    | None =>
        match given (competitor a) with
        | Some name =>
            match given (dict_get (Py.lower name) COMPETITOR_URLS) with
            | Some u =>
                ([Print ("Scraping " +:+ name +:+ "...")],
                 Some [scrape_named name u])
            | None =>
                ([Print ("Unknown competitor: " +:+ name);
                  Print ("Available: "
                         +:+ String.concat ", " (COMPETITOR_URLS.*1))],
                 Some [])
            end
        | None => ([Print "Please specify --url, --competitor, or --all"], None)
        end
    end.

(** The block under [if __name__ == "__main__":], from the namespace that
    [parser.parse_args()] has returned. *)
Definition main (a : args) : list effect * ending :=
  match select a with
  | (console, None) => (console, Exit 1)
  | (console, Some found) =>
      let doc := {| scraped_at := now; results := found |} in
      match given (output a) with
      | Some path =>
          match open_for_writing path with
          | Some e => (console, Uncaught e)
          | None =>
              (console ++ [WriteJson path doc;
                           Print ("Results saved to " +:+ path)],
               Exit 0)
          end
      | None => (console ++ [PrintJson doc], Exit 0)
      end
  end.



End Main.

End PricingCLI.

Module ReviewsCLI.
Import Cli.

Definition COMPETITOR_APPS : list (string * string) :=
  [("teamsnap", "393048976");
   ("gamechanger", "476016817");
   ("sportsengine", "521594269")]%string.

(** [COMPETITOR_APPS.get(args.app.lower(), args.app) if args.app else
    COMPETITOR_APPS["teamsnap"]]; a key that is missing raises [KeyError]. *)
Definition app_id (app : option string) : Py.result string :=
  match given app with
  | Some name => Py.ret (default name (dict_get (Py.lower name) COMPETITOR_APPS))
  | None =>
      match dict_get "teamsnap" COMPETITOR_APPS with
      | Some id => Py.ret id
      | None => Py.raise (Py.OtherException "'teamsnap'")
      end
  end.

End ReviewsCLI.

(** * Definitions for the statements *)

Import Re Pricing Markup Reviews.

(** The two dictionaries [scrape_pricing_page] returns. *)
Definition failure_result (url : string) (e : Py.exn) : gmap string value :=
  {[ "url" := VStr url;
     "prices_found" := VList [];
     "error" := VStr (Py.str_exn e);
     "success" := VBool false ]}.

Definition success_result (url html : string) (tag_prices : list string)
    : gmap string value :=
  {[ "url" := VStr url;
     "prices_found" := VList (combine_prices tag_prices (regex_prices html));
     "raw_html_length" := VInt (Z.of_nat (String.length html));
     "success" := VBool true ]}.

(** The sample text of the specification. *)
Definition sample_text : string := "Only $9.99/mo or go FREE".

(** A host that cannot be reached, and a page that is served. *)
Definition unreachable : string → Py.result string :=
  λ _, inl (Py.URLError "[Errno -2] Name or service not known").

Definition serves (html : string) : string → Py.result string :=
  λ _, inr html.

(** A parser on whose page the tokenizer itself raises before any
    callback, as [HTMLParser.feed] does on a marked section with an unknown
    keyword. *)
Definition tokenizer_raises (html : string) : list html_event * option Py.exn :=
  ([], Some (Py.OtherException "unknown status keyword 'if' in marked section")).

(** A page so large that [read] raises [MemoryError()]: an exception whose
    [str()] is the empty string. *)
Definition out_of_memory : string → Py.result string :=
  λ _, inl (Py.OtherException "").

(** A parser for the examples: on plain markup it issues the callbacks of
    [html_events] and raises nothing. The examples feed it plain markup
    only; what it answers elsewhere stands for no page. *)
Definition plain_callbacks (html : string) : list html_event * option Py.exn :=
  (default [] (html_events html), None).

(** The three conditions in the words of the specification: a complaint
    keyword and a rating of at most 3 (5 when there is none), a praise
    keyword and a rating of at least 4 (0 when there is none), a
    feature-request phrase. *)
Definition mentions (keywords : list string) (r : review) : bool :=
  existsb (λ keyword, Py.contains keyword (haystack r)) keywords.

Definition is_complaint (r : review) : bool :=
  mentions complaint_keywords r && (default 5 (rating r) <=? 3).

Definition is_praise (r : review) : bool :=
  mentions praise_keywords r && (4 <=? default 0 (rating r)).

Definition is_feature_request (r : review) : bool :=
  mentions feature_keywords r.

(** The same review with the rating field set. *)
Definition with_rating (n : Z) (r : review) : review :=
  {| rating := Some n; title := title r; content := content r;
     author := author r; version := version r |}.

(** Twelve reviews that all complain, the third with a long content. *)
Definition complaint_about (n : nat) : review :=
  {| rating := Some 1;
     title := Some "Bad"%string;
     content := Some ("crash " +:+ String.concat "" (replicate n "again "%string));
     author := None; version := None |}.

Definition twelve_complaints : list review :=
  [complaint_about 0; complaint_about 1; complaint_about 40; complaint_about 3;
   complaint_about 4; complaint_about 5; complaint_about 6; complaint_about 7;
   complaint_about 8; complaint_about 9; complaint_about 10; complaint_about 11].

(** A feed of three entries: the second has a rating label that is no
    integer. *)
Definition feed_entry (rating_label content_label : string) : json :=
  JDict [("im:rating"%string, JDict [("label"%string, JStr rating_label)]);
         ("title"%string, JDict [("label"%string, JStr "Review")]);
         ("content"%string, JDict [("label"%string, JStr content_label)])].

Definition feed_with_bad_rating : json :=
  JDict [("feed"%string,
          JDict [("entry"%string,
                  JList [feed_entry "5" "Love it";
                         feed_entry "five" "Crashes";
                         feed_entry "4" "Great"])])].

(** [attrs_dict.get("class", "")] and the test of [handle_starttag] on it. *)
Definition class_attribute (attrs : list (string * option string)) : option string :=
  default (Some ""%string) (Py.dict_of_pairs attrs !! "class").

Definition pricing_class (class_name : string) : bool :=
  existsb (λ keyword, Py.contains keyword (Py.lower class_name)) price_keywords.

(** The text that the data callbacks among [evs] add to [text]. *)
Definition text_after (text : string) (evs : list html_event) : string :=
  foldl (λ acc ev, match ev with Data data => acc +:+ data | _ => acc end) text evs.

(** The last character of a string. *)
Fixpoint last_char (s : string) : option ascii :=
  match s with
  | EmptyString => None
  | String c EmptyString => Some c
  | String _ s' => last_char s'
  end.

(** A string as [handle_endtag] records it: not empty, its first and its
    last character no white space, so that stripping it changes nothing. *)
Definition recorded (s : string) : Prop :=
  s ≠ ""%string
  ∧ (∃ c rest, s = String c rest ∧ Py.is_space c = false)
  ∧ (∃ c, last_char s = Some c ∧ Py.is_space c = false)
  ∧ Py.strip s = s.



(** [review.get("rating", 0)], the number of reviews with a given rating,
    and the sum of the ratings. *)
Definition rating_of (r : review) : Z := default 0 (rating r).

Definition rated (k : Z) (reviews : list review) : Z :=
  Z.of_nat (length (List.filter (λ r, bool_decide (rating_of r = k)) reviews)).

Definition rating_sum (reviews : list review) : Z :=
  foldr (λ r acc, rating_of r + acc) 0 reviews.

Definition in_range (r : review) : bool :=
  bool_decide (1 ≤ rating_of r ≤ 5).


(** * Properties *)

(** ** Strings *)

Lemma slice_to_length (n : nat) (s : string) :
  (String.length (Py.slice_to n s) <= n)%nat.
Proof.
  revert s. induction n as [|n IH]; intros [|c s]; simpl; try lia.
  specialize (IH s). lia.
Qed.

Lemma slice_to_prefix (n : nat) (s : string) :
  ∃ rest, s = Py.slice_to n s +:+ rest.
Proof.
  revert s. induction n as [|n IH]; intros s.
  - exists s. by destruct s.
  - destruct s as [|c s]; [by exists EmptyString|].
    destruct (IH s) as [rest Hrest]. exists rest.
    change (String c s = String c (Py.slice_to n s +:+ rest)).
    congruence.
Qed.

Lemma slice_to_all (n : nat) (s : string) :
  (String.length s <= n)%nat → Py.slice_to n s = s.
Proof.
  revert s. induction n as [|n IH]; intros [|c s]; simpl; intros; try done; try lia.
  f_equal. apply IH. lia.
Qed.

(** ** The tag-based extractor *)

Lemma handle_endtag_resets (self : parser) (tag : string) :
  in_price (handle_endtag self tag) = false
  ∧ current_text (handle_endtag self tag) = ""%string.
Proof. done. Qed.

(** C1. Every closing tag resets the flag of the tag-based extractor,
    whatever tag it closes. Fed <span class="price"><b>$10</b></span>, the
    extractor records "$10" when the inner </b> arrives, and the outer
    </span> records nothing: the list of candidates is exactly ["$10"]. *)
Theorem C1_any_endtag_ends_capture :
  (∀ (self : parser) (tag : string),
      in_price (handle_endtag self tag) = false)
  ∧ (∀ (self : parser) (tag tag' : string),
      handle_endtag self tag = handle_endtag self tag')
  ∧ html_events nested_price_markup
    = Some [StartTag "span" [("class"%string, Some "price"%string)];
            StartTag "b" []; Data "$10"; EndTag "b"; EndTag "span"]
  ∧ feed init [StartTag "span" [("class"%string, Some "price"%string)];
               StartTag "b" []; Data "$10"; EndTag "b"]
    = inr {| in_price := false; prices := ["$10"%string]; current_text := "" |}
  ∧ feed init [StartTag "span" [("class"%string, Some "price"%string)];
               StartTag "b" []; Data "$10"; EndTag "b"; EndTag "span"]
    = inr {| in_price := false; prices := ["$10"%string]; current_text := "" |}.
Proof.
  split; [intros; apply handle_endtag_resets|].
  split; [done|].
  split; [vm_compute; reflexivity|].
  split; vm_compute; reflexivity.
Qed.

(** ** The regular expressions *)

Lemma match_prefix_is_prefix (ic : bool) (r : regex) (s m : string) :
  match_prefix ic r s = Some m → ∃ rest, s = m +:+ rest.
Proof.
  unfold match_prefix. destruct (matches ic r s Some) as [rest|]; [|done].
  intros [= <-]. apply slice_to_prefix.
Qed.

Lemma findall_from_substring (ic : bool) (r : regex) (s : string) :
  ∀ (skip : nat) (m : string),
    m ∈ findall_from ic r skip s → ∃ pre post, s = pre +:+ m +:+ post.
Proof.
  induction s as [|c s IH]; intros skip m Hm.
  - destruct skip as [|skip]; simpl in Hm; [|by apply elem_of_nil in Hm].
    destruct (match_prefix ic r "") as [m0|] eqn:Hm0;
      [|by apply elem_of_nil in Hm].
    apply list_elem_of_singleton in Hm as ->.
    apply match_prefix_is_prefix in Hm0 as [rest ->].
    by exists EmptyString, rest.
  - assert (Htail : ∀ k, m ∈ findall_from ic r k s →
                         ∃ pre post, String c s = pre +:+ m +:+ post).
    { intros k Hk. destruct (IH k m Hk) as (pre & post & ->).
      by exists (String c pre), post. }
    destruct skip as [|skip]; simpl in Hm; [|by eapply Htail].
    destruct (match_prefix ic r (String c s)) as [m0|] eqn:Hm0;
      [|by eapply Htail].
    apply elem_of_cons in Hm as [->|Hm]; [|by eapply Htail].
    apply match_prefix_is_prefix in Hm0 as [rest Hrest].
    by exists EmptyString, rest.
Qed.

Lemma regex_prices_elem (html m : string) :
  m ∈ regex_prices html → ∃ pattern, pattern ∈ price_patterns ∧ m ∈ findall true pattern html.
Proof.
  unfold regex_prices, price_patterns. simpl. intros Hm.
  repeat (apply elem_of_app in Hm as [Hm|Hm]);
    eexists; (split; [|exact Hm]); set_solver.
Qed.

Lemma regex_prices_substring (html m : string) :
  m ∈ regex_prices html → ∃ pre post, html = pre +:+ m +:+ post.
Proof.
  intros (pattern & _ & Hm)%regex_prices_elem.
  by eapply findall_from_substring.
Qed.

(** C7. On "Only $9.99/mo or go FREE" the three patterns, applied without
    regard to case, find "$9.99/mo" and "FREE" (and nothing else). Every match
    on any text is a slice of that text, so its case is the text's; here the
    lower-case spelling "free" is not among the matches. *)
Theorem C7_regex_on_sample_text :
  regex_prices sample_text = ["$9.99/mo"; "FREE"]%string
  ∧ "$9.99/mo"%string ∈ regex_prices sample_text
  ∧ "FREE"%string ∈ regex_prices sample_text
  ∧ ("free"%string ∉ regex_prices sample_text)
  ∧ (∀ (html m : string),
       m ∈ regex_prices html → ∃ pre post, html = pre +:+ m +:+ post).
Proof.
  assert (Hrun : regex_prices sample_text = ["$9.99/mo"; "FREE"]%string)
    by (vm_compute; reflexivity).
  rewrite Hrun. split; [done|].
  split; [set_solver|]. split; [set_solver|].
  split; [|apply regex_prices_substring].
  intros Hin. apply elem_of_cons in Hin as [?|Hin]; [done|].
  apply list_elem_of_singleton in Hin. done.
Qed.

Lemma C7_regex_on_sample_text_witness :
  "FREE"%string ∈ regex_prices sample_text
  ∧ ∃ pre post, sample_text = pre +:+ "FREE" +:+ post.
Proof.
  assert (Hin : "FREE"%string ∈ regex_prices sample_text).
  { replace (regex_prices sample_text) with ["$9.99/mo"; "FREE"]%string
      by (vm_compute; reflexivity).
    apply elem_of_cons; right; apply list_elem_of_singleton; reflexivity. }
  split; [exact Hin|].
  destruct C7_regex_on_sample_text as (_ & _ & _ & _ & Hslice).
  exact (Hslice sample_text "FREE"%string Hin).
Defined.

(** ** scrape_pricing_page *)

Section PricingPageProperties.

Variable urlopen : string → Py.result string.
Variable html_callbacks : string → list html_event * option Py.exn.

Lemma scrape_raised (url : string) (e : Py.exn) :
  (urlopen url = inl e
   ∨ ∃ html, urlopen url = inr html
             ∧ feed_html init (html_callbacks html) = inl e) →
  scrape_pricing_page urlopen html_callbacks url = failure_result url e.
Proof.
  unfold scrape_pricing_page, Pricing.scrape_body, Py.bind.
  intros [->|(html & -> & ->)]; done.
Qed.

Lemma scrape_returned (url html : string) (p : parser) :
  urlopen url = inr html →
  feed_html init (html_callbacks html) = inr p →
  scrape_pricing_page urlopen html_callbacks url = success_result url html (prices p).
Proof.
  unfold scrape_pricing_page, Pricing.scrape_body, Py.bind.
  by intros -> ->.
Qed.

(** The two ways through the function. *)
Lemma scrape_cases (url : string) :
  (∃ e, (urlopen url = inl e
         ∨ ∃ html, urlopen url = inr html
                   ∧ feed_html init (html_callbacks html) = inl e)
        ∧ scrape_pricing_page urlopen html_callbacks url = failure_result url e)
  ∨ (∃ html p, urlopen url = inr html
               ∧ feed_html init (html_callbacks html) = inr p
               ∧ scrape_pricing_page urlopen html_callbacks url = success_result url html (prices p)).
Proof.
  destruct (urlopen url) as [e|html] eqn:Hopen.
  { left. exists e. split; [by left|]. apply scrape_raised. by left. }
  destruct (feed_html init (html_callbacks html)) as [e|p] eqn:Hfeed.
  - left. exists e. split; [right; by exists html|].
    apply scrape_raised. right. by exists html.
  - right. exists html, p. split; [done|]. split; [done|].
    by apply scrape_returned.
Qed.

Lemma dom_failure_result (url : string) (e : Py.exn) :
  dom (failure_result url e)
  = ({["url"; "prices_found"; "error"; "success"]} : gset string).
Proof. unfold failure_result. rewrite !dom_insert_L, dom_singleton_L. set_solver. Qed.

Lemma dom_success_result (url html : string) (l : list string) :
  dom (success_result url html l)
  = ({["url"; "prices_found"; "raw_html_length"; "success"]} : gset string).
Proof. unfold success_result. rewrite !dom_insert_L, dom_singleton_L. set_solver. Qed.

(** C3, as the code has it. Every result of [scrape_pricing_page] has the
    fields url, prices_found and success. When success is true its fields
    are exactly url, prices_found, raw_html_length and success; when
    success is false they are exactly url, prices_found, error and
    success, so raw_html_length is missing. The function never sets
    competitor. *)
Theorem C3_result_fields (url : string) :
  scrape_pricing_page urlopen html_callbacks url !! "url" = Some (VStr url)
  ∧ (∃ l, scrape_pricing_page urlopen html_callbacks url !! "prices_found" = Some (VList l))
  ∧ ((scrape_pricing_page urlopen html_callbacks url !! "success" = Some (VBool true)
      ∧ dom (scrape_pricing_page urlopen html_callbacks url)
        = ({["url"; "prices_found"; "raw_html_length"; "success"]} : gset string)
      ∧ ∃ n, scrape_pricing_page urlopen html_callbacks url !! "raw_html_length" = Some (VInt n))
     ∨ (scrape_pricing_page urlopen html_callbacks url !! "success" = Some (VBool false)
        ∧ dom (scrape_pricing_page urlopen html_callbacks url)
          = ({["url"; "prices_found"; "error"; "success"]} : gset string)
        ∧ scrape_pricing_page urlopen html_callbacks url !! "raw_html_length" = None
        ∧ ∃ msg, scrape_pricing_page urlopen html_callbacks url !! "error" = Some (VStr msg)))
  ∧ scrape_pricing_page urlopen html_callbacks url !! "competitor" = None.
Proof.
  destruct (scrape_cases url) as [(e & _ & ->)|(html & p & _ & _ & ->)].
  - split; [done|]. split; [by eexists|]. split; [|done].
    right. split; [done|]. split; [apply dom_failure_result|].
    split; [done|by eexists].
  - split; [done|]. split; [by eexists|]. split; [|done].
    left. split; [done|]. split; [apply dom_success_result|by eexists].
Qed.

(** C4, as the code has it. When the request raises [e], or the parse does
    (the tokenizer of [HTMLParser.feed] or one of the handlers), the result
    is the failure record: success is false, error is [str(e)] and
    prices_found is the empty list. The error string is whatever [str(e)]
    is: not empty for the errors [urlopen] itself raises ([URLError], as for
    an unreachable host, and [HTTPError]), empty for an exception whose
    [str()] is empty. *)
Theorem C4_exception_gives_failure_result (url : string) (e : Py.exn) :
  (urlopen url = inl e
   ∨ ∃ html, urlopen url = inr html
             ∧ feed_html init (html_callbacks html) = inl e) →
  scrape_pricing_page urlopen html_callbacks url = failure_result url e
  ∧ scrape_pricing_page urlopen html_callbacks url !! "success" = Some (VBool false)
  ∧ scrape_pricing_page urlopen html_callbacks url !! "error" = Some (VStr (Py.str_exn e))
  ∧ scrape_pricing_page urlopen html_callbacks url !! "prices_found" = Some (VList [])
  ∧ ((∃ reason, e = Py.URLError reason) ∨ (∃ code msg, e = Py.HTTPError code msg)
     → Py.str_exn e ≠ ""%string).
Proof.
  intros Hraised. rewrite (scrape_raised url e Hraised).
  repeat (split; [done|]).
  intros [(reason & ->)|(code & msg & ->)]; done.
Qed.

(** C8. After a successful scrape, prices_found holds every string the
    tag-based extractor or the patterns found, each of them once. *)
Theorem C8_prices_found_no_duplicates (url html : string) (p : parser) :
  urlopen url = inr html →
  feed_html init (html_callbacks html) = inr p →
  ∃ l, scrape_pricing_page urlopen html_callbacks url !! "prices_found" = Some (VList l)
       ∧ scrape_pricing_page urlopen html_callbacks url !! "success" = Some (VBool true)
       ∧ NoDup l
       ∧ ∀ x, x ∈ l ↔ x ∈ prices p ∨ x ∈ regex_prices html.
Proof.
  intros Hopen Hfeed. rewrite (scrape_returned url html p Hopen Hfeed).
  exists (combine_prices (prices p) (regex_prices html)).
  split; [done|]. split; [done|].
  unfold combine_prices, Py.list_of_set. split; [apply NoDup_elements|].
  intros x. rewrite elem_of_elements, elem_of_list_to_set. apply elem_of_app.
Qed.

End PricingPageProperties.

(** C3 as stated fails: the result for a host that cannot be reached has no
    field raw_html_length. *)
Lemma C3_failure_result_lacks_html_length :
  ¬ (∀ (urlopen : string → Py.result string)
       (html_callbacks : string → list html_event * option Py.exn)
       (url : string),
       let result := scrape_pricing_page urlopen html_callbacks url in
       is_Some (result !! "url") ∧ is_Some (result !! "prices_found")
       ∧ is_Some (result !! "raw_html_length") ∧ is_Some (result !! "success")).
Proof.
  intros Hall.
  destruct (Hall unreachable plain_callbacks "https://gc.com/pricing"%string)
    as (_ & _ & [v Hv] & _).
  vm_compute in Hv. discriminate Hv.
Qed.

(** C4 as stated fails where it asks for a non-empty error string after
    every failed fetch: when [read] runs out of memory the exception is
    [MemoryError()], its [str()] is empty, and so is the error field. *)
Lemma C4_error_string_may_be_empty :
  ¬ (∀ (urlopen : string → Py.result string)
       (html_callbacks : string → list html_event * option Py.exn)
       (url : string) (e : Py.exn),
       urlopen url = inl e →
       let result := scrape_pricing_page urlopen html_callbacks url in
       result !! "success" = Some (VBool false)
       ∧ result !! "prices_found" = Some (VList [])
       ∧ ∃ message, result !! "error" = Some (VStr message)
                    ∧ message = Py.str_exn e ∧ message ≠ ""%string).
Proof.
  intros Hall.
  destruct (Hall out_of_memory plain_callbacks "https://gc.com/pricing"%string
              (Py.OtherException "") eq_refl)
    as (_ & _ & message & Herror & _ & Hmessage).
  vm_compute in Herror. injection Herror as <-. by apply Hmessage.
Qed.

Lemma C4_exception_gives_failure_result_witness :
  (unreachable "https://gc.com/pricing" = inl (Py.URLError "[Errno -2] Name or service not known")
   ∧ scrape_pricing_page unreachable plain_callbacks "https://gc.com/pricing" !! "error"
     = Some (VStr "<urlopen error [Errno -2] Name or service not known>"))
  ∧ (feed_html init (plain_callbacks "<div class>$5</div>")
     = inl (Py.AttributeError "NoneType" "lower")
     ∧ scrape_pricing_page (serves "<div class>$5</div>") plain_callbacks
         "https://gc.com/pricing" !! "error"
       = Some (VStr "'NoneType' object has no attribute 'lower'"))
  ∧ (feed_html init (tokenizer_raises "<![if x]>")
     = inl (Py.OtherException "unknown status keyword 'if' in marked section")
     ∧ scrape_pricing_page (serves "<![if x]>") tokenizer_raises
         "https://gc.com/pricing" !! "error"
       = Some (VStr "unknown status keyword 'if' in marked section")).
Proof.
  split; [|split].
  - split; [reflexivity|].
    exact (proj1 (proj2 (proj2
      (C4_exception_gives_failure_result unreachable plain_callbacks
         "https://gc.com/pricing"%string
         (Py.URLError "[Errno -2] Name or service not known")
         (or_introl eq_refl))))).
  - split; [vm_compute; reflexivity|].
    refine (proj1 (proj2 (proj2
      (C4_exception_gives_failure_result (serves "<div class>$5</div>")
         plain_callbacks "https://gc.com/pricing"%string
         (Py.AttributeError "NoneType" "lower")
         (or_intror (ex_intro _ "<div class>$5</div>"%string (conj eq_refl _)))))));
    vm_compute; reflexivity.
  - split; [reflexivity|].
    exact (proj1 (proj2 (proj2
      (C4_exception_gives_failure_result (serves "<![if x]>")
         tokenizer_raises "https://gc.com/pricing"%string
         (Py.OtherException "unknown status keyword 'if' in marked section")
         (or_intror (ex_intro _ "<![if x]>"%string (conj eq_refl eq_refl))))))).
Defined.

Lemma C8_prices_found_no_duplicates_witness :
  feed_html init (plain_callbacks nested_price_markup)
  = inr {| in_price := false; prices := ["$10"%string]; current_text := "" |}
  ∧ regex_prices nested_price_markup = ["$10"%string]
  ∧ ∃ l, scrape_pricing_page (serves nested_price_markup) plain_callbacks
           "https://gc.com/pricing" !! "prices_found" = Some (VList l)
         ∧ NoDup l.
Proof.
  assert (Hfeed : feed_html init (plain_callbacks nested_price_markup)
    = inr {| in_price := false; prices := ["$10"%string]; current_text := "" |})
    by (vm_compute; reflexivity).
  split; [exact Hfeed|]. split; [vm_compute; reflexivity|].
  destruct (C8_prices_found_no_duplicates (serves nested_price_markup)
              plain_callbacks "https://gc.com/pricing"%string
              nested_price_markup _ eq_refl Hfeed)
    as (l & Hl & _ & Hnodup & _).
  exists l. split; [exact Hl|exact Hnodup].
Defined.

(** ** analyze_reviews *)

Lemma complaint_loop_spec (keywords : list string) (text : string) (r : review)
    (acc : list string) :
  complaint_loop keywords text r acc
  = if existsb (λ keyword, Py.contains keyword text) keywords
       && (default 5 (rating r) <=? 3)
    then acc ++ [excerpt r] else acc.
Proof.
  induction keywords as [|keyword rest IH]; [done|]. simpl. rewrite IH.
  destruct (Py.contains keyword text); simpl; [|done].
  by destruct (default 5 (rating r) <=? 3); rewrite ?andb_false_r.
Qed.

Lemma praise_loop_spec (keywords : list string) (text : string) (r : review)
    (acc : list string) :
  praise_loop keywords text r acc
  = if existsb (λ keyword, Py.contains keyword text) keywords
       && (4 <=? default 0 (rating r))
    then acc ++ [excerpt r] else acc.
Proof.
  induction keywords as [|keyword rest IH]; [done|]. simpl. rewrite IH.
  destruct (Py.contains keyword text); simpl; [|done].
  by destruct (4 <=? default 0 (rating r)); rewrite ?andb_false_r.
Qed.

Lemma feature_loop_spec (keywords : list string) (text : string) (r : review)
    (acc : list string) :
  feature_loop keywords text r acc
  = if existsb (λ keyword, Py.contains keyword text) keywords
    then acc ++ [excerpt r] else acc.
Proof.
  induction keywords as [|keyword rest IH]; [done|]. simpl. rewrite IH.
  by destruct (Py.contains keyword text).
Qed.

Lemma categorize_spec (acc : themes) (r : review) :
  categorize acc r
  = {| complaints := complaints acc ++ (if is_complaint r then [excerpt r] else []);
       praises := praises acc ++ (if is_praise r then [excerpt r] else []);
       features := features acc ++ (if is_feature_request r then [excerpt r] else []) |}.
Proof.
  unfold categorize. rewrite complaint_loop_spec, praise_loop_spec, feature_loop_spec.
  unfold is_complaint, is_praise, is_feature_request, mentions.
  f_equal.
  - by destruct (_ && _); rewrite ?app_nil_r.
  - by destruct (_ && _); rewrite ?app_nil_r.
  - by destruct (existsb _ _); rewrite ?app_nil_r.
Qed.

Lemma filter_map_cons {A B} (f : A → B) (keep : A → bool) (x : A) (l : list A) :
  f <$> List.filter keep (x :: l)
  = (if keep x then [f x] else []) ++ (f <$> List.filter keep l).
Proof. simpl. by destruct (keep x). Qed.

Lemma foldl_categorize (reviews : list review) :
  ∀ acc : themes,
    foldl categorize acc reviews
    = {| complaints := complaints acc ++ (excerpt <$> List.filter is_complaint reviews);
         praises := praises acc ++ (excerpt <$> List.filter is_praise reviews);
         features := features acc
                     ++ (excerpt <$> List.filter is_feature_request reviews) |}.
Proof.
  induction reviews as [|r rest IH]; intros acc.
  - simpl. rewrite !app_nil_r. by destruct acc.
  - cbn [foldl]. rewrite IH, categorize_spec. cbn [complaints praises features].
    rewrite !filter_map_cons, <- !app_assoc. done.
Qed.

Lemma analyze_reviews_themes (reviews : list review) :
  common_complaints (analyze_reviews reviews)
  = take 10 (excerpt <$> List.filter is_complaint reviews)
  ∧ common_praises (analyze_reviews reviews)
    = take 10 (excerpt <$> List.filter is_praise reviews)
  ∧ feature_requests (analyze_reviews reviews)
    = take 10 (excerpt <$> List.filter is_feature_request reviews).
Proof.
  destruct reviews as [|r rest]; [done|].
  unfold analyze_reviews.
  destruct (foldl count_rating _ _) as [total_rating distribution].
  rewrite foldl_categorize. done.
Qed.

Lemma excerpt_of_filtered (keep : review → bool) (reviews : list review) (s : string) :
  s ∈ take 10 (excerpt <$> List.filter keep reviews) →
  ∃ r, r ∈ reviews ∧ keep r = true ∧ s = excerpt r.
Proof.
  intros Hs. apply (subseteq_take 10), list_elem_of_fmap in Hs.
  destruct Hs as (r & -> & Hr).
  apply list_elem_of_In, filter_In in Hr as [Hr Hkeep].
  exists r. by rewrite list_elem_of_In.
Qed.

(** C5. For the empty list the analysis is the initial one: no reviews,
    average 0, every bucket from 1 to 5 at 0, and three empty lists. *)
Theorem C5_empty_review_list :
  total_reviews (analyze_reviews []) = 0
  ∧ average_rating (analyze_reviews []) = Int 0
  ∧ dom (rating_distribution (analyze_reviews [])) = ({[1; 2; 3; 4; 5]} : gset Z)
  ∧ rating_distribution (analyze_reviews []) !! 1 = Some 0
  ∧ rating_distribution (analyze_reviews []) !! 2 = Some 0
  ∧ rating_distribution (analyze_reviews []) !! 3 = Some 0
  ∧ rating_distribution (analyze_reviews []) !! 4 = Some 0
  ∧ rating_distribution (analyze_reviews []) !! 5 = Some 0
  ∧ common_complaints (analyze_reviews []) = []
  ∧ common_praises (analyze_reviews []) = []
  ∧ feature_requests (analyze_reviews []) = [].
Proof.
  split; [done|]. split; [done|].
  split; [|repeat split; done].
  cbn. rewrite !dom_insert_L, dom_singleton_L. set_solver.
Qed.

(** C6. Each of the three lists holds the excerpts (the content cut to its
    first 200 characters) of the reviews that meet its condition, in the
    order of the input, and stops after the first 10 of them. So each list
    has at most 10 entries, and each entry is a prefix, of at most 200
    characters, of the content of a review of the input that meets the
    condition. *)
Theorem C6_excerpts_first_ten_in_order (reviews : list review) :
  let a := analyze_reviews reviews in
  (common_complaints a = take 10 (excerpt <$> List.filter is_complaint reviews)
   ∧ common_praises a = take 10 (excerpt <$> List.filter is_praise reviews)
   ∧ feature_requests a
     = take 10 (excerpt <$> List.filter is_feature_request reviews))
  ∧ (length (common_complaints a) ≤ 10
     ∧ length (common_praises a) ≤ 10
     ∧ length (feature_requests a) ≤ 10)%nat
  ∧ (∀ s, s ∈ common_complaints a ∨ s ∈ common_praises a ∨ s ∈ feature_requests a →
       ∃ r, r ∈ reviews
            ∧ s = Py.slice_to 200 (default ""%string (content r))
            ∧ (String.length s ≤ 200)%nat
            ∧ ∃ rest, default ""%string (content r) = s +:+ rest).
Proof.
  intros a. subst a.
  destruct (analyze_reviews_themes reviews) as (Hc & Hp & Hf).
  split; [done|]. split.
  { rewrite Hc, Hp, Hf, !length_take. lia. }
  assert (Hexcerpt : ∀ keep s,
    s ∈ take 10 (excerpt <$> List.filter keep reviews) →
    ∃ r, r ∈ reviews
         ∧ s = Py.slice_to 200 (default ""%string (content r))
         ∧ (String.length s ≤ 200)%nat
         ∧ ∃ rest, default ""%string (content r) = s +:+ rest).
  { intros keep s (r & Hr & _ & ->)%excerpt_of_filtered.
    exists r. split; [done|]. split; [done|].
    split; [apply slice_to_length|apply slice_to_prefix]. }
  rewrite Hc, Hp, Hf. intros s [Hs|[Hs|Hs]]; by eapply Hexcerpt.
Qed.

Lemma C6_excerpts_first_ten_in_order_witness :
  "crash again "%string ∈ common_complaints (analyze_reviews twelve_complaints)
  ∧ length (common_complaints (analyze_reviews twelve_complaints)) = 10%nat
  ∧ (String.length <$> common_complaints (analyze_reviews twelve_complaints)) !! 2%nat
    = Some 200%nat
  ∧ ∃ r, r ∈ twelve_complaints
         ∧ "crash again "%string = Py.slice_to 200 (default ""%string (content r)).
Proof.
  assert (Hin : "crash again "%string
                ∈ common_complaints (analyze_reviews twelve_complaints)).
  { replace (common_complaints (analyze_reviews twelve_complaints))
      with (take 10 (excerpt <$> twelve_complaints)) by (vm_compute; reflexivity).
    apply list_elem_of_lookup. exists 1%nat. vm_compute. reflexivity. }
  split; [exact Hin|]. split; [vm_compute; reflexivity|].
  split; [vm_compute; reflexivity|].
  destruct (C6_excerpts_first_ten_in_order twelve_complaints)
    as (_ & _ & Hentries).
  destruct (Hentries "crash again "%string (or_introl Hin)) as (r & Hr & Hs & _).
  exists r. split; [exact Hr|exact Hs].
Defined.

(** C2. A review without rating field leaves [complaints] and [praises] as
    they are: its complaint check runs as for rating 5 and its praise check
    as for rating 0. It is still appended to [features] when it has a
    feature-request phrase, as the review "wish it had dark mode" shows. *)
Theorem C2_missing_rating (acc : themes) (r : review) :
  rating r = None →
  complaints (categorize acc r) = complaints acc
  ∧ praises (categorize acc r) = praises acc
  ∧ features (categorize acc r)
    = (if is_feature_request r then features acc ++ [excerpt r] else features acc)
  ∧ complaints (categorize acc r) = complaints (categorize acc (with_rating 5 r))
  ∧ praises (categorize acc r) = praises (categorize acc (with_rating 0 r))
  ∧ (∀ before after,
       common_complaints (analyze_reviews (before ++ r :: after))
       = take 10 (excerpt <$> List.filter is_complaint (before ++ after))
       ∧ common_praises (analyze_reviews (before ++ r :: after))
         = take 10 (excerpt <$> List.filter is_praise (before ++ after)))
  ∧ (∃ r0, rating r0 = None
           ∧ feature_requests (analyze_reviews [r0]) = ["wish it had dark mode"%string]
           ∧ common_complaints (analyze_reviews [r0]) = []
           ∧ common_praises (analyze_reviews [r0]) = []).
Proof.
  intros Hnone.
  assert (Hc : is_complaint r = false).
  { unfold is_complaint. rewrite Hnone. simpl. apply andb_false_r. }
  assert (Hp : is_praise r = false).
  { unfold is_praise. rewrite Hnone. simpl. apply andb_false_r. }
  assert (Hc5 : is_complaint (with_rating 5 r) = false).
  { unfold is_complaint. simpl. apply andb_false_r. }
  assert (Hp0 : is_praise (with_rating 0 r) = false).
  { unfold is_praise. simpl. apply andb_false_r. }
  rewrite !categorize_spec. cbn [complaints praises features].
  rewrite Hc, Hp, Hc5, Hp0, !app_nil_r.
  split; [done|]. split; [done|].
  split; [by destruct (is_feature_request r); rewrite ?app_nil_r|].
  split; [done|]. split; [done|]. split.
  - intros before after.
    destruct (analyze_reviews_themes (before ++ r :: after)) as (-> & -> & _).
    rewrite !List.filter_app. simpl. by rewrite Hc, Hp.
  - exists {| rating := None; title := None;
              content := Some "wish it had dark mode"%string;
              author := None; version := None |}.
    split; [done|]. vm_compute. done.
Qed.

Lemma C2_missing_rating_witness :
  let r := {| rating := None; title := Some "Crash"%string;
              content := Some "I love it, but I wish it would not crash"%string;
              author := None; version := None |} in
  rating r = None
  ∧ categorize (mk_themes [] [] []) r
    = mk_themes [] [] ["I love it, but I wish it would not crash"%string].
Proof.
  intros r. split; [reflexivity|].
  pose proof (C2_missing_rating (mk_themes [] [] []) r eq_refl)
    as (Hc & Hp & Hf & _).
  destruct (categorize (mk_themes [] [] []) r) as [cs ps fs].
  simpl in Hc, Hp, Hf. rewrite Hc, Hp, Hf. vm_compute. reflexivity.
Defined.

(** C10. No review is appended to both [complaints] and [praises]: one
    round of the loop, from any state and so at any position of any input
    list, leaves at least one of the two lists as it was. With
    a rating, "at most 3" and "at least 4" exclude each other; without one,
    5 is not at most 3 and 0 is not at least 4. *)
Theorem C10_complaint_and_praise_exclusive :
  (∀ (acc : themes) (r : review),
     complaints (categorize acc r) = complaints acc
     ∨ praises (categorize acc r) = praises acc)
  ∧ (∀ r : review, is_complaint r && is_praise r = false)
  ∧ (∀ (reviews : list review) (i : nat),
       let acc := foldl categorize (mk_themes [] [] []) (take i reviews) in
       match reviews !! i with
       | Some r => complaints (categorize acc r) = complaints acc
                   ∨ praises (categorize acc r) = praises acc
       | None => True
       end).
Proof.
  assert (Hexcl : ∀ r : review, is_complaint r && is_praise r = false).
  { intros r. unfold is_complaint, is_praise.
    destruct (rating r) as [n|]; simpl.
    - destruct (Z.leb_spec n 3), (Z.leb_spec 4 n);
        rewrite ?andb_false_r; try done; lia.
    - by rewrite !andb_false_r. }
  assert (Hstep : ∀ (acc : themes) (r : review),
    complaints (categorize acc r) = complaints acc
    ∨ praises (categorize acc r) = praises acc).
  { intros acc r. rewrite categorize_spec. cbn [complaints praises].
    specialize (Hexcl r).
    destruct (is_complaint r), (is_praise r); rewrite ?app_nil_r; auto; done. }
  split; [exact Hstep|]. split; [exact Hexcl|].
  intros reviews i acc. destruct (reviews !! i) as [r|]; [apply Hstep|done].
Qed.

(** ** scrape_apple_reviews *)

Lemma normalize_entries_raises (entries : list json) :
  ∀ (reviews : list scraped_review) (entry : json) (f : failure),
    entry ∈ entries →
    is_dict_with "content" entry = true →
    normalize entry = inl f →
    ∃ f', normalize_entries entries reviews = inl f'.
Proof.
  induction entries as [|first rest IH]; intros reviews entry f Hin Hdict Hraise.
  - by apply elem_of_nil in Hin.
  - simpl. apply elem_of_cons in Hin as [<-|Hin].
    + rewrite Hdict, Hraise. by exists f.
    + destruct (is_dict_with "content" first); [|by eapply IH].
      destruct (normalize first) as [f0|review]; [by exists f0|].
      simpl. by eapply IH.
Qed.

(** Without a raising entry the loop returns: entries that are no
    dictionary with a content key are passed over. *)
Lemma normalize_entries_returns (entries : list json) :
  ∀ reviews : list scraped_review,
    Forall (λ entry, is_dict_with "content" entry = true →
                     ∃ review, normalize entry = inr review) entries →
    ∃ found, normalize_entries entries reviews = inr (reviews ++ found).
Proof.
  induction entries as [|first rest IH]; intros reviews Hall.
  - exists []. simpl. by rewrite app_nil_r.
  - apply Forall_cons in Hall as [Hfirst Hrest]. simpl.
    destruct (is_dict_with "content" first).
    + destruct (Hfirst eq_refl) as [review ->]. simpl.
      destruct (IH (reviews ++ [review]) Hrest) as [found ->].
      exists (review :: found). by rewrite <- app_assoc.
    + by apply IH.
Qed.

(** C9. When one of the first [count] entries of the feed raises while it
    is normalized, [scrape_apple_reviews] returns the empty list (and prints
    the error): the reviews normalized before it are lost. *)
Theorem C9_normalization_all_or_nothing
    (fetch_json : string → Py.result json) (app_id country : string)
    (count : Z) (data : json) (entries : list json) (entry : json) (f : failure) :
  fetch_json (feed_url app_id country) = inr data →
  feed_entries data = inr (JList entries) →
  entry ∈ Py.list_slice_to count entries →
  is_dict_with "content" entry = true →
  normalize entry = inl f →
  ∃ f', scrape_apple_reviews fetch_json app_id country count
        = ([], [ErrorScrapingReviews f']).
Proof.
  intros Hfetch Hentries Hin Hdict Hraise.
  unfold scrape_apple_reviews, Reviews.scrape_body.
  rewrite Hfetch. simpl. rewrite Hentries. simpl.
  destruct (normalize_entries_raises _ [] entry f Hin Hdict Hraise) as [f' ->].
  by exists f'.
Qed.

Lemma C9_normalization_all_or_nothing_witness :
  normalize (feed_entry "five" "Crashes") = inl (IntRefused (JStr "five"))
  ∧ (∃ f', scrape_apple_reviews (λ _, inr feed_with_bad_rating) "393048976" "us" 50
           = ([], [ErrorScrapingReviews f']))
  ∧ scrape_apple_reviews (λ _, inr feed_with_bad_rating) "393048976" "us" 1
    = ([{| s_rating := 5; s_title := JStr "Review"; s_content := JStr "Love it";
           s_author := JStr ""; s_version := JStr "" |}], []).
Proof.
  split; [vm_compute; reflexivity|]. split; [|vm_compute; reflexivity].
  refine (C9_normalization_all_or_nothing (λ _, inr feed_with_bad_rating)
            "393048976"%string "us"%string 50 feed_with_bad_rating
            [feed_entry "5" "Love it"; feed_entry "five" "Crashes";
             feed_entry "4" "Great"]
            (feed_entry "five" "Crashes") (IntRefused (JStr "five"))
            eq_refl eq_refl _ _ _).
  - apply list_elem_of_lookup. exists 1%nat. vm_compute. reflexivity.
  - vm_compute. reflexivity.
  - vm_compute. reflexivity.
Defined.

(** * Further properties of the code *)

(** ** White space *)

Lemma lstrip_head (s : string) :
  match Py.lstrip s with
  | String c _ => Py.is_space c = false
  | EmptyString => True
  end.
Proof.
  induction s as [|c s IH]; [done|]. simpl.
  destruct (Py.is_space c) eqn:Hc; [exact IH|exact Hc].
Qed.

Lemma rstrip_idem (s : string) : Py.rstrip (Py.rstrip s) = Py.rstrip s.
Proof.
  induction s as [|c s IH]; [done|]. simpl.
  destruct (Py.is_space c && Py.is_empty (Py.rstrip s)) eqn:Hc; [done|].
  simpl. by rewrite IH, Hc.
Qed.

Lemma lstrip_rstrip (s : string) :
  match s with
  | String c _ => Py.is_space c = false
  | EmptyString => True
  end →
  Py.lstrip (Py.rstrip s) = Py.rstrip s.
Proof.
  destruct s as [|c s]; [done|]. intros Hc. simpl. rewrite Hc. simpl. by rewrite Hc.
Qed.

Lemma strip_idem (s : string) : Py.strip (Py.strip s) = Py.strip s.
Proof.
  unfold Py.strip. rewrite (lstrip_rstrip (Py.lstrip s) (lstrip_head s)).
  apply rstrip_idem.
Qed.

(** ** PricingParser *)

Lemma handle_starttag_cases (self : parser) (tag : string)
    (attrs : list (string * option string)) :
  handle_starttag self tag attrs
  = match class_attribute attrs with
    | None => inl (Py.AttributeError "NoneType" "lower")
    | Some class_name =>
        inr (if pricing_class class_name
             then {| in_price := true; prices := prices self;
                     current_text := current_text self |}
             else self)
    end.
Proof.
  unfold handle_starttag, class_attribute, pricing_class.
  destruct (default _ _) as [class_name|]; [|done].
  by destruct (existsb _ _).
Qed.

(** X1. A document in which no start tag has a class with one of the five
    keywords (and none has a class without value) leaves the extractor as
    it started: no candidate is recorded, whatever text and end tags the
    document has. *)
Theorem feed_without_pricing_class (evs : list html_event) :
  (∀ tag attrs, StartTag tag attrs ∈ evs →
     ∃ class_name, class_attribute attrs = Some class_name
                   ∧ pricing_class class_name = false) →
  feed init evs = inr init.
Proof.
  induction evs as [|ev evs IH]; intros Hclass; [done|].
  assert (Hhead : handle init ev = inr init).
  { destruct ev as [tag attrs| |]; [|done|done]. simpl.
    destruct (Hclass tag attrs) as (class_name & Hc & Hk);
      [apply elem_of_cons; by left|].
    by rewrite handle_starttag_cases, Hc, Hk. }
  simpl. rewrite Hhead. simpl. apply IH.
  intros tag attrs Hin. apply (Hclass tag attrs), elem_of_cons. by right.
Qed.

Lemma feed_without_pricing_class_witness :
  feed init [StartTag "div" [("id"%string, Some "total"%string)];
             Data "$5 per user"; EndTag "div"]
  = inr init.
Proof.
  apply feed_without_pricing_class. intros tag attrs Hin.
  apply elem_of_cons in Hin as [[= -> ->]|Hin].
  - exists ""%string. split; vm_compute; reflexivity.
  - apply elem_of_cons in Hin as [Hin|Hin]; [discriminate Hin|].
    apply elem_of_cons in Hin as [Hin|Hin]; [discriminate Hin|].
    by apply elem_of_nil in Hin.
Defined.

Lemma rstrip_last (s : string) (c : ascii) :
  last_char (Py.rstrip s) = Some c → Py.is_space c = false.
Proof.
  induction s as [|d s IH]; [done|]. simpl.
  destruct (Py.is_space d && Py.is_empty (Py.rstrip s)) eqn:Hd; [done|].
  destruct (Py.rstrip s) as [|d' r] eqn:Hr.
  - simpl. intros [= <-]. simpl in Hd. by rewrite andb_true_r in Hd.
  - exact IH.
Qed.

Lemma last_char_some (s : string) : s ≠ ""%string → ∃ c, last_char s = Some c.
Proof.
  induction s as [|d s IH]; [done|]. intros _.
  destruct s as [|d' s]; [by exists d|]. by apply IH.
Qed.

Lemma strip_recorded (s : string) : Py.strip s ≠ ""%string → recorded (Py.strip s).
Proof.
  intros Hne. split; [done|]. split; [|split; [|apply strip_idem]].
  - pose proof (lstrip_head (Py.strip s)) as Hhead.
    unfold Py.strip in Hhead at 1.
    rewrite (lstrip_rstrip (Py.lstrip s) (lstrip_head s)) in Hhead.
    fold (Py.strip s) in Hhead.
    destruct (Py.strip s) as [|c rest]; [done|]. by exists c, rest.
  - destruct (last_char_some _ Hne) as [c Hc]. exists c. split; [done|].
    by apply (rstrip_last (Py.lstrip s)).
Qed.

Lemma handle_endtag_recorded (self : parser) (tag : string) :
  Forall recorded (prices self) → Forall recorded (prices (handle_endtag self tag)).
Proof.
  intros Hall. unfold handle_endtag. cbn [prices].
  destruct (in_price self && negb (Py.is_empty (Py.strip (current_text self))))
    eqn:Hrec; [|done].
  apply Forall_app. split; [done|]. apply Forall_singleton.
  apply andb_true_iff in Hrec as [_ Hne]. apply strip_recorded.
  intros Hempty. by rewrite Hempty in Hne.
Qed.

Lemma handle_prices (self self' : parser) (ev : html_event) :
  handle self ev = inr self' →
  prices self' = prices self
  ∨ ∃ tag, ev = EndTag tag ∧ self' = handle_endtag self tag.
Proof.
  destruct ev as [tag attrs|tag|data]; simpl.
  - rewrite handle_starttag_cases.
    destruct (class_attribute attrs) as [class_name|]; [|done].
    intros [= <-]. left. by destruct (pricing_class class_name).
  - intros [= <-]. right. by exists tag.
  - intros [= <-]. left. unfold handle_data. by destruct (in_price self).
Qed.

(** X2. Every candidate the extractor has recorded, after any document, is a
    non-empty string whose first and last characters are no white space
    (white space as [str.strip] has it, the no-break space included). *)
Theorem recorded_prices_are_stripped (evs : list html_event) :
  ∀ self p : parser,
    Forall recorded (prices self) →
    feed self evs = inr p →
    Forall recorded (prices p).
Proof.
  induction evs as [|ev evs IH]; intros self p Hall; simpl.
  - by intros [= <-].
  - destruct (handle self ev) as [e|self'] eqn:Hev; [done|]. simpl.
    apply IH.
    destruct (handle_prices _ _ _ Hev) as [->|(tag & _ & ->)]; [done|].
    by apply handle_endtag_recorded.
Qed.

Lemma recorded_prices_are_stripped_witness :
  Forall recorded ["$10"%string].
Proof.
  refine (recorded_prices_are_stripped
            [StartTag "span" [("class"%string, Some "price"%string)];
             Data (String (ascii_of_nat 160) " $10 ");
             Data (String (ascii_of_nat 133) EmptyString); EndTag "span"]
            init {| in_price := false; prices := ["$10"%string]; current_text := "" |}
            _ _).
  - apply Forall_nil_2.
  - vm_compute. reflexivity.
Defined.

(** X3. The extractor only ever appends: what it had recorded before a
    run of callbacks is a prefix of what it has recorded after it. *)
Theorem recorded_prices_only_grow (evs : list html_event) :
  ∀ self p : parser,
    feed self evs = inr p → prices self `prefix_of` prices p.
Proof.
  induction evs as [|ev evs IH]; intros self p; simpl.
  - by intros [= <-].
  - destruct (handle self ev) as [e|self'] eqn:Hev; [done|]. simpl.
    intros Hrest%IH.
    destruct (handle_prices _ _ _ Hev) as [Heq|(tag & _ & ->)];
      [by rewrite <- Heq|].
    etrans; [|exact Hrest]. unfold handle_endtag. cbn [prices].
    destruct (_ && _); [by apply prefix_app_r|done].
Qed.

Lemma recorded_prices_only_grow_witness :
  ["$10"%string] `prefix_of` ["$10"; "Free"]%string.
Proof.
  refine (recorded_prices_only_grow
            [StartTag "p" [("class"%string, Some "plan-name"%string)];
             Data "Free"; EndTag "p"]
            {| in_price := false; prices := ["$10"%string]; current_text := "" |}
            {| in_price := false; prices := ["$10"; "Free"]%string;
               current_text := "" |} _).
  vm_compute. reflexivity.
Defined.

Lemma dict_of_pairs_later {V} (after : list (string * V)) (key : string) :
  ∀ d : gmap string V,
    key ∉ after.*1 →
    foldl (λ d kv, <[kv.1 := kv.2]> d) d after !! key = d !! key.
Proof.
  induction after as [|[k v] after IH]; intros d Hkey; [done|].
  simpl in *. apply not_elem_of_cons in Hkey as [Hk Hkey].
  rewrite IH by done. by apply lookup_insert_ne.
Qed.

Lemma dict_of_pairs_last {V} (before after : list (string * V))
    (key : string) (v : V) :
  key ∉ after.*1 →
  Py.dict_of_pairs (before ++ (key, v) :: after) !! key = Some v.
Proof.
  intros Hkey. unfold Py.dict_of_pairs. rewrite foldl_app. simpl.
  rewrite dict_of_pairs_later by done. apply lookup_insert_eq.
Qed.

(** X4. When a start tag has several class attributes the last one
    decides, as in [dict(attrs)]: the tag is handled as if that class
    attribute were its only attribute, whatever attributes come before it
    and whatever other attributes come after it. *)
Theorem last_class_attribute_decides (self : parser) (tag : string)
    (before after : list (string * option string)) (class_value : option string) :
  "class"%string ∉ after.*1 →
  handle_starttag self tag (before ++ ("class"%string, class_value) :: after)
  = handle_starttag self tag [("class"%string, class_value)].
Proof.
  intros Hlast. rewrite !handle_starttag_cases. unfold class_attribute.
  rewrite (dict_of_pairs_last before after) by done.
  pose proof (dict_of_pairs_last [] [] "class" class_value
                (not_elem_of_nil _)) as Hone.
  cbn [app] in Hone. by rewrite Hone.
Qed.

Lemma last_class_attribute_decides_witness :
  handle_starttag init "div"
    ([("class"%string, Some "price"%string); ("id"%string, Some "note"%string)]
     ++ ("class"%string, Some "note"%string)
        :: [("style"%string, Some "cost"%string); ("hidden"%string, None)])
  = handle_starttag init "div" [("class"%string, Some "note"%string)].
Proof.
  apply (last_class_attribute_decides init "div"
           [("class"%string, Some "price"%string); ("id"%string, Some "note"%string)]
           [("style"%string, Some "cost"%string); ("hidden"%string, None)]
           (Some "note"%string)).
  simpl. intros Hin.
  apply elem_of_cons in Hin as [Hin|Hin]; [discriminate Hin|].
  apply elem_of_cons in Hin as [Hin|Hin]; [discriminate Hin|].
  by apply elem_of_nil in Hin.
Defined.

Lemma text_after_app (text : string) (evs evs' : list html_event) :
  text_after text (evs ++ evs') = text_after (text_after text evs) evs'.
Proof. apply foldl_app. Qed.

(** X5. Once capture is on, only an end tag ends it. Start tags (with or
    without a pricing class) and text in between leave the flag on, and the
    next end tag records all the text seen since, joined in order and
    stripped, as one candidate. *)
Theorem capture_runs_to_next_endtag (evs : list html_event) :
  ∀ (self : parser) (tag : string),
    in_price self = true →
    Forall (λ ev, match ev with
                  | StartTag _ attrs => is_Some (class_attribute attrs)
                  | Data _ => True
                  | EndTag _ => False
                  end) evs →
    feed self (evs ++ [EndTag tag])
    = inr (handle_endtag
             {| in_price := true; prices := prices self;
                current_text := text_after (current_text self) evs |} tag).
Proof.
  induction evs as [|ev evs IH]; intros self tag Hin Hevs.
  - simpl. destruct self as [flag found text]. simpl in Hin. by subst flag.
  - apply Forall_cons in Hevs as [Hev Hevs].
    destruct ev as [t attrs|t|data]; [| done |].
    + destruct Hev as [class_name Hclass]. cbn [app feed handle].
      rewrite handle_starttag_cases, Hclass. cbn [Py.bind].
      assert (Hsame : (if pricing_class class_name
                       then {| in_price := true; prices := prices self;
                               current_text := current_text self |}
                       else self) = self).
      { destruct self as [flag found text]. simpl in Hin. subst flag.
        by destruct (pricing_class class_name). }
      rewrite Hsame. by apply IH.
    + cbn [app feed handle Py.bind Py.ret]. unfold handle_data. rewrite Hin.
      rewrite IH; [done|done|done].
Qed.

Lemma capture_runs_to_next_endtag_witness :
  feed {| in_price := true; prices := []; current_text := "" |}
       ([Data "from "; StartTag "b" []; Data "$10"; StartTag "sup" []; Data "/mo"]
        ++ [EndTag "sup"])
  = inr {| in_price := false; prices := ["from $10/mo"%string]; current_text := "" |}.
Proof.
  rewrite (capture_runs_to_next_endtag
             [Data "from "; StartTag "b" []; Data "$10"; StartTag "sup" []; Data "/mo"]
             {| in_price := true; prices := []; current_text := "" |} "sup"
             eq_refl).
  - vm_compute. reflexivity.
  - repeat constructor; vm_compute; eauto.
Defined.

(** ** The price patterns *)

Lemma star_class_rest {A} (cls : ascii → bool) (s : string)
    (k : string → option A) (x : A) :
  star_class cls s k = Some x →
  ∃ rest, k rest = Some x ∧ (String.length rest ≤ String.length s)%nat.
Proof.
  induction s as [|c s IH]; simpl; [by exists EmptyString|].
  destruct (cls c); [|by exists (String c s)].
  destruct (star_class cls s k) as [y|] eqn:Hstar.
  - intros [= ->]. destruct (IH eq_refl) as (rest & Hk & Hlen).
    exists rest. split; [done|]. lia.
  - intros Hk. by exists (String c s).
Qed.

(** A match hands to its continuation a text that is not longer than the
    text it started on. *)
Lemma matches_rest {A} (ic : bool) (r : regex) :
  ∀ (s : string) (k : string → option A) (x : A),
    matches ic r s k = Some x →
    ∃ rest, k rest = Some x ∧ (String.length rest ≤ String.length s)%nat.
Proof.
  induction r as [c| | | |r1 IH1 r2 IH2|r1 IH1 r2 IH2|r1 IH1| |];
    intros s k x; cbn [matches].
  - destruct s as [|d s]; [done|]. destruct (lit_matches ic c d); [|done].
    intros Hk. exists s. split; [done|]. simpl. lia.
  - destruct s as [|d s]; [done|]. destruct (Py.is_digit d); [|done].
    intros Hk. exists s. split; [done|]. simpl. lia.
  - destruct s as [|d s]; [done|]. destruct (Py.is_space d); [|done].
    intros Hk. exists s. split; [done|]. simpl. lia.
  - intros Hk. by exists s.
  - intros (rest1 & (rest & Hk & Hlen)%IH2 & Hlen1)%IH1.
    exists rest. split; [done|]. lia.
  - destruct (matches ic r1 s k) as [y|] eqn:H1.
    + intros [= ->]. by apply IH1.
    + apply IH2.
  - destruct (matches ic r1 s k) as [y|] eqn:H1.
    + intros [= ->]. by apply IH1.
    + intros Hk. by exists s.
  - apply star_class_rest.
  - apply star_class_rest.
Qed.

(** What holds of every prefix match holds of every match of [findall]. *)
Lemma findall_from_all (P : string → Prop) (ic : bool) (r : regex) :
  (∀ s m, match_prefix ic r s = Some m → P m) →
  ∀ (s : string) (skip : nat) (m : string),
    m ∈ findall_from ic r skip s → P m.
Proof.
  intros Hprefix s. induction s as [|c s IH]; intros skip m Hm.
  - destruct skip as [|skip]; simpl in Hm; [|by apply elem_of_nil in Hm].
    destruct (match_prefix ic r "") as [m0|] eqn:Hm0;
      [|by apply elem_of_nil in Hm].
    apply list_elem_of_singleton in Hm as ->. by eapply Hprefix.
  - destruct skip as [|skip]; simpl in Hm; [|by eapply IH].
    destruct (match_prefix ic r (String c s)) as [m0|] eqn:Hm0; [|by eapply IH].
    apply elem_of_cons in Hm as [->|Hm]; [by eapply Hprefix|by eapply IH].
Qed.

Lemma lower_char_dollar (d : ascii) :
  Py.lower_char "$" = Py.lower_char d → d = "$"%char.
Proof.
  destruct d as [[] [] [] [] [] [] [] []]; vm_compute; intros H;
    first [reflexivity | discriminate H].
Qed.

Lemma slice_to_app_length (pre rest : string) :
  Py.slice_to (String.length (pre +:+ rest) - String.length rest) (pre +:+ rest)
  = pre.
Proof.
  assert (Hlen : ∀ a b, String.length (a +:+ b)
                        = (String.length a + String.length b)%nat).
  { intros a b. induction a as [|c a IH]; simpl; [done|]. by rewrite IH. }
  rewrite Hlen.
  replace (String.length pre + String.length rest - String.length rest)%nat
    with (String.length pre) by lia.
  induction pre as [|c pre IH]; simpl; [by destruct rest|]. by rewrite IH.
Qed.

Lemma matches_lit_inv {A} (ic : bool) (c : ascii) (s : string)
    (k : string → option A) (x : A) :
  matches ic (Lit c) s k = Some x →
  ∃ d s', s = String d s' ∧ lit_matches ic c d = true ∧ k s' = Some x.
Proof.
  destruct s as [|d s]; simpl; [done|].
  destruct (lit_matches ic c d) eqn:Hc; [|done]. intros Hk. by exists d, s.
Qed.

Lemma matches_digit_inv {A} (ic : bool) (s : string)
    (k : string → option A) (x : A) :
  matches ic Digit s k = Some x →
  ∃ d s', s = String d s' ∧ Py.is_digit d = true ∧ k s' = Some x.
Proof.
  destruct s as [|d s]; simpl; [done|].
  destruct (Py.is_digit d) eqn:Hd; [|done]. intros Hk. by exists d, s.
Qed.

(** A match of a pattern that begins with [dollar_amount] begins with a
    dollar sign and a digit. *)
Lemma dollar_amount_prefix (r : regex) (s m : string) :
  match_prefix true (Seq dollar_amount r) s = Some m →
  ∃ d rest, m = String "$" (String d rest) ∧ Py.is_digit d = true.
Proof.
  unfold match_prefix.
  destruct (matches _ _ s Some) as [rest|] eqn:Hm; [|done].
  intros [= <-].
  assert (Hm' : matches true (Lit "$") s
                  (λ s1, matches true Digit s1
                     (λ s2, matches true
                        (Seq StarDigit
                           (Seq (Opt (Seq (Lit ".") (Seq Digit Digit))) r))
                        s2 Some))
                = Some rest) by exact Hm.
  apply matches_lit_inv in Hm' as (c & s1 & -> & Hc & Hm').
  apply matches_digit_inv in Hm' as (d & s2 & -> & Hd & Hm').
  apply matches_rest in Hm' as (rest' & [= ->] & Hlen).
  unfold lit_matches in Hc. apply bool_decide_eq_true in Hc.
  apply lower_char_dollar in Hc as ->.
  assert (Hpos : ∃ n, (String.length (String "$" (String d s2))
                       - String.length rest)%nat = S (S n)).
  { exists (String.length s2 - String.length rest)%nat. simpl. lia. }
  destruct Hpos as [n ->]. by exists d, (Py.slice_to n s2).
Qed.

Lemma lower_app (a b : string) : Py.lower (a +:+ b) = Py.lower a +:+ Py.lower b.
Proof. induction a as [|c a IH]; simpl; [done|]. by rewrite IH. Qed.

(** A literal word, matched without regard to case, consumes a text that
    is the word up to case. *)
Lemma matches_word {A} (w : string) :
  ∀ (s : string) (k : string → option A) (x : A),
    matches true (Str w) s k = Some x →
    ∃ pre rest, s = pre +:+ rest ∧ Py.lower pre = Py.lower w ∧ k rest = Some x.
Proof.
  induction w as [|c w IH]; intros s k x; cbn [Str matches].
  - intros Hk. by exists EmptyString, s.
  - destruct s as [|d s]; [done|].
    destruct (lit_matches true c d) eqn:Hc; [|done].
    intros (pre & rest & -> & Hlow & Hk)%IH.
    exists (String d pre), rest. split; [done|]. split; [|done].
    unfold lit_matches in Hc. apply bool_decide_eq_true in Hc.
    simpl. by rewrite Hc, Hlow.
Qed.

Lemma free_pattern_prefix (s m : string) :
  match_prefix true (Alt (Str "free") (Alt (Str "Free") (Str "FREE"))) s = Some m →
  Py.lower m = "free"%string.
Proof.
  unfold match_prefix.
  destruct (matches _ _ s Some) as [rest|] eqn:Hm; [|done].
  intros [= <-]. cbn [matches] in Hm.
  assert (Hword : ∀ w, Py.lower w = "free"%string →
                       matches true (Str w) s Some = Some rest →
                       Py.lower (Py.slice_to (String.length s - String.length rest) s)
                       = "free"%string).
  { intros w Hw (pre & rest' & -> & Hlow & [= ->])%matches_word.
    by rewrite slice_to_app_length, Hlow. }
  destruct (matches true (Str "free") s Some) as [y|] eqn:H1.
  { injection Hm as ->. by apply (Hword "free"%string). }
  destruct (matches true (Str "Free") s Some) as [y|] eqn:H2.
  { injection Hm as ->. by apply (Hword "Free"%string). }
  by apply (Hword "FREE"%string).
Qed.

(** X6. Every string the three patterns find, on any text, is either a
    dollar sign followed by a digit (and possibly more) or the word "free" in
    some capitalisation. *)
Theorem regex_prices_shape (html m : string) :
  m ∈ regex_prices html →
  (∃ d rest, m = String "$" (String d rest) ∧ Py.is_digit d = true)
  ∨ Py.lower m = "free"%string.
Proof.
  intros (pattern & Hpattern & Hm)%regex_prices_elem.
  unfold price_patterns in Hpattern. unfold findall in Hm.
  pose (dollar m := ∃ d rest, m = String "$" (String d rest) ∧ Py.is_digit d = true).
  apply elem_of_cons in Hpattern as [->|Hpattern].
  { left. exact (findall_from_all dollar true _ (dollar_amount_prefix _) _ _ _ Hm). }
  apply elem_of_cons in Hpattern as [->|Hpattern].
  { left. exact (findall_from_all dollar true _ (dollar_amount_prefix _) _ _ _ Hm). }
  apply list_elem_of_singleton in Hpattern as ->. right.
  exact (findall_from_all (λ m, Py.lower m = "free"%string) true _
           free_pattern_prefix _ _ _ Hm).
Qed.

Lemma regex_prices_shape_witness :
  "FREE"%string ∈ regex_prices sample_text
  ∧ ((∃ d rest, "FREE"%string = String "$" (String d rest) ∧ Py.is_digit d = true)
     ∨ Py.lower "FREE" = "free"%string).
Proof.
  assert (Hin : "FREE"%string ∈ regex_prices sample_text).
  { replace (regex_prices sample_text) with ["$9.99/mo"; "FREE"]%string
      by (vm_compute; reflexivity).
    apply elem_of_cons; right; apply list_elem_of_singleton; reflexivity. }
  split; [exact Hin|]. exact (regex_prices_shape sample_text "FREE"%string Hin).
Defined.

(** Where a prefix match succeeds on every text with property [P], a text
    with a tail that has [P] gives [findall] at least one match. *)
Lemma findall_from_finds (P : string → Prop) (ic : bool) (r : regex) :
  (∀ s, P s → is_Some (match_prefix ic r s)) →
  ∀ pre post, P post → ∃ m, m ∈ findall_from ic r 0 (pre +:+ post).
Proof.
  intros Hprefix pre post Hpost. induction pre as [|c pre IH].
  - change ("" +:+ post) with post.
    destruct (Hprefix post Hpost) as [m Hm]. exists m.
    destruct post as [|c post]; simpl; rewrite Hm; apply elem_of_cons; by left.
  - change (String c pre +:+ post) with (String c (pre +:+ post)).
    cbn [findall_from].
    destruct (match_prefix ic r (String c (pre +:+ post))) as [m|].
    + exists m. apply elem_of_cons. by left.
    + exact IH.
Qed.

Lemma matches_word_app {A} (w : string) :
  ∀ (w' rest : string) (k : string → option A),
    Py.lower w' = Py.lower w →
    matches true (Str w) (w' +:+ rest) k = k rest.
Proof.
  induction w as [|c w IH]; intros [|c' w'] rest k Hlow; try done.
  injection Hlow as Hc Hlow. cbn [Str matches].
  change (String c' w' +:+ rest) with (String c' (w' +:+ rest)).
  unfold lit_matches. rewrite Hc, bool_decide_eq_true_2 by done. by apply IH.
Qed.

(** X7. A text that contains the word "free", in any capitalisation and
    anywhere (also inside a longer word or a tag), makes the patterns find a
    string that is "free" up to case. *)
Theorem free_is_found (pre w post : string) :
  Py.lower w = "free"%string →
  ∃ m, m ∈ regex_prices (pre +:+ w +:+ post) ∧ Py.lower m = "free"%string.
Proof.
  intros Hw.
  destruct (findall_from_finds
              (λ s, ∃ rest, s = w +:+ rest) true
              (Alt (Str "free") (Alt (Str "Free") (Str "FREE")))) with
    (pre := pre) (post := w +:+ post) as [m Hm].
  - intros s [rest ->]. unfold match_prefix. cbn [matches].
    rewrite (matches_word_app "free" w rest Some Hw). by eexists.
  - by exists post.
  - exists m. split.
    + unfold regex_prices, price_patterns. simpl. apply elem_of_app. by right.
    + exact (findall_from_all (λ m, Py.lower m = "free"%string) true _
               free_pattern_prefix _ _ _ Hm).
Qed.

Lemma free_is_found_witness :
  Py.lower "fReE" = "free"%string
  ∧ ∃ m, m ∈ regex_prices ("carefReEly" : string) ∧ Py.lower m = "free"%string.
Proof.
  split; [reflexivity|].
  exact (free_is_found "care" "fReE" "ly" eq_refl).
Defined.

Lemma star_class_total {A} (cls : ascii → bool) (k : string → option A) :
  (∀ s, is_Some (k s)) → ∀ s, is_Some (star_class cls s k).
Proof.
  intros Hk s. induction s as [|c s IH]; simpl; [apply Hk|].
  destruct (cls c); [|apply Hk].
  destruct (star_class cls s k); [by eexists|apply Hk].
Qed.

Lemma matches_opt_total {A} (ic : bool) (r : regex) (k : string → option A) :
  (∀ s, is_Some (k s)) → ∀ s, is_Some (matches ic (Opt r) s k).
Proof.
  intros Hk s. cbn [matches]. destruct (matches ic r s k); [by eexists|apply Hk].
Qed.

(** X8. A text that contains a dollar sign directly followed by a digit
    makes the patterns find a string that begins with a dollar sign and a
    digit. *)
Theorem dollar_amount_is_found (pre : string) (d : ascii) (post : string) :
  Py.is_digit d = true →
  ∃ m c rest, m ∈ regex_prices (pre +:+ String "$" (String d post))
              ∧ m = String "$" (String c rest) ∧ Py.is_digit c = true.
Proof.
  intros Hd.
  pose (tail_options := Opt (Seq (Str "/mo") (Opt (Str "nth")))).
  destruct (findall_from_finds
              (λ s, ∃ rest, s = String "$" (String d rest)) true
              (Seq dollar_amount tail_options)) with
    (pre := pre) (post := String "$" (String d post)) as [m Hm].
  - intros s [rest ->]. unfold match_prefix.
    assert (Hsome : is_Some
      (matches true (Seq dollar_amount tail_options)
         (String "$" (String d rest)) Some)).
    { change (is_Some
        (if lit_matches true "$" "$" then
           if Py.is_digit d then
             star_class Py.is_digit rest
               (λ s2, matches true (Opt (Seq (Lit ".") (Seq Digit Digit))) s2
                  (λ s3, matches true tail_options s3 Some))
           else None
         else None)).
      rewrite Hd. change (lit_matches true "$" "$") with true. cbv iota.
      apply star_class_total. intros s2. apply matches_opt_total.
      intros s3. apply matches_opt_total. intros s4. by eexists. }
    destruct Hsome as [x ->]. by eexists.
  - by exists post.
  - destruct (findall_from_all
                (λ m, ∃ c rest, m = String "$" (String c rest)
                                ∧ Py.is_digit c = true)
                true _ (dollar_amount_prefix _) _ _ _ Hm)
      as (c & rest & -> & Hc).
    eexists _, c, rest. split; [|done].
    unfold regex_prices, price_patterns. simpl.
    apply elem_of_app. left. apply elem_of_app. by left.
Qed.

Lemma dollar_amount_is_found_witness :
  Py.is_digit "4" = true
  ∧ ∃ m c rest, m ∈ regex_prices ("<td>US$49</td>" : string)
                ∧ m = String "$" (String c rest) ∧ Py.is_digit c = true.
Proof.
  split; [reflexivity|].
  exact (dollar_amount_is_found "<td>US" "4" "9</td>" eq_refl).
Defined.

(** ** The command line of the pricing script *)

Section PricingMainProperties.

Import Cli PricingCLI.

Variable urlopen : string → Py.result string.
Variable html_callbacks : string → list html_event * option Py.exn.
Variable now : string.
Variable open_for_writing : string → option Py.exn.

Lemma scrape_all_spec (items : list (string * string)) :
  ∀ (console : list effect) (found : list (gmap string value)),
    scrape_all urlopen html_callbacks items console found
    = (console ++ ((λ item, Print ("  Scraping " +:+ item.1 +:+ "...")) <$> items),
       found ++ ((λ item, scrape_named urlopen html_callbacks item.1 item.2)
                   <$> items)).
Proof.
  induction items as [|[name u] items IH]; intros console found; simpl.
  - by rewrite !app_nil_r.
  - rewrite IH, <- !app_assoc. done.
Qed.





(** X10. With --all the document holds one result for each entry of
    [COMPETITOR_URLS], in the order teamsnap, sportsengine, gamechanger,
    each the result of scraping that competitor's page with the field
    competitor set to its name; --url and --competitor are then ignored. *)
Theorem pricing_main_all (a : args) :
  all a = true →
  (select urlopen html_callbacks a).2
  = Some ((λ item, <["competitor" := VStr item.1]>
                     (scrape_pricing_page urlopen html_callbacks item.2))
            <$> COMPETITOR_URLS)
  ∧ ∃ r1 r2 r3,
      (select urlopen html_callbacks a).2 = Some [r1; r2; r3]
      ∧ r1 !! "competitor" = Some (VStr "teamsnap")
      ∧ r1 !! "url" = Some (VStr "https://www.teamsnap.com/pricing")
      ∧ r2 !! "competitor" = Some (VStr "sportsengine")
      ∧ r2 !! "url"
        = Some (VStr "https://www.sportsengine.com/solutions/team-management")
      ∧ r3 !! "competitor" = Some (VStr "gamechanger")
      ∧ r3 !! "url" = Some (VStr "https://gc.com/pricing").
Proof.
  intros Hall. unfold select. rewrite Hall, scrape_all_spec. simpl.
  split; [done|].
  assert (Hurl : ∀ name u,
    scrape_named urlopen html_callbacks name u !! "url" = Some (VStr u)).
  { intros name u. unfold scrape_named. rewrite lookup_insert_ne by done.
    by destruct (scrape_cases urlopen html_callbacks u)
      as [(e & _ & ->)|(html & p & _ & _ & ->)]. }
  eexists _, _, _. split; [reflexivity|].
  unfold scrape_named at 1 3 5. rewrite !lookup_insert_eq, !Hurl. done.
Qed.

End PricingMainProperties.

Lemma pricing_main_all_witness :
  ∃ r1 r2 r3,
    (PricingCLI.select unreachable plain_callbacks
       (PricingCLI.mk_args (Some "https://example.org/"%string) None true None)).2
    = Some [r1; r2; r3]
    ∧ r2 !! "competitor" = Some (VStr "sportsengine").
Proof.
  destruct (pricing_main_all unreachable plain_callbacks
              (PricingCLI.mk_args (Some "https://example.org/"%string) None true None)
              eq_refl)
    as (_ & r1 & r2 & r3 & Hsel & _ & _ & Hname & _).
  exists r1, r2, r3. split; [exact Hsel|exact Hname].
Defined.

Section PricingSelectProperties.

Import Cli PricingCLI.

Variable urlopen : string → Py.result string.
Variable html_callbacks : string → list html_event * option Py.exn.

Lemma scrape_fields (u : string) :
  let r := scrape_pricing_page urlopen html_callbacks u in
  r !! "url" = Some (VStr u)
  ∧ is_Some (r !! "prices_found") ∧ is_Some (r !! "success")
  ∧ r !! "competitor" = None.
Proof.
  destruct (scrape_cases urlopen html_callbacks u)
    as [(e & _ & Hr)|(html & p & _ & _ & Hr)]; simpl; rewrite Hr;
    (split; [done|]); (split; [by eexists|]); (split; [by eexists|done]).
Qed.

Lemma scrape_named_fields (name u : string) :
  let r := scrape_named urlopen html_callbacks name u in
  r !! "url" = Some (VStr u)
  ∧ is_Some (r !! "prices_found") ∧ is_Some (r !! "success")
  ∧ r !! "competitor" = Some (VStr name).
Proof.
  destruct (scrape_fields u) as (Hu & Hp & Hs & _). simpl in *.
  unfold scrape_named. rewrite !lookup_insert_ne by done.
  by rewrite lookup_insert_eq.
Qed.

(** X11. A competitor is looked up by the lower-case form of the name
    given, but the result carries the name as it was typed. A name that is
    no key of the table gives an empty result list, and the request function
    is not consulted: the run is the same for any network. *)
Theorem pricing_main_competitor (a : args) (name : string) :
  all a = false →
  given (url a) = None →
  given (competitor a) = Some name →
  match dict_get (Py.lower name) COMPETITOR_URLS with
  | Some u =>
      (select urlopen html_callbacks a).2
      = Some [<["competitor" := VStr name]>
                (scrape_pricing_page urlopen html_callbacks u)]
  | None =>
      ∀ (other_urlopen : string → Py.result string) (now : string)
        (open_for_writing : string → option Py.exn),
        (select urlopen html_callbacks a).2 = Some []
        ∧ main urlopen html_callbacks now open_for_writing a
          = main other_urlopen html_callbacks now open_for_writing a
  end.
Proof.
  intros Hall Hurl Hname.
  destruct (dict_get (Py.lower name) COMPETITOR_URLS) as [u|] eqn:Hget.
  - unfold select. rewrite Hall, Hurl, Hname, Hget.
    assert (Hu : given (Some u) = Some u).
    { simpl in Hget. repeat case_bool_decide; by simplify_eq. }
    by rewrite Hu.
  - intros other_urlopen now open_for_writing.
    unfold main, select. by rewrite Hall, Hurl, Hname, Hget.
Qed.

(** X12. Whatever the arguments, the result list of the pricing script has
    at most three entries, each with the fields url, prices_found and
    success; the entries have the field competitor except when the page was
    selected with --url. *)
Theorem pricing_main_results (a : args) (found : list (gmap string value)) :
  (select urlopen html_callbacks a).2 = Some found →
  (length found ≤ 3)%nat
  ∧ Forall (λ r, is_Some (r !! "url") ∧ is_Some (r !! "prices_found")
                 ∧ is_Some (r !! "success")
                 ∧ (is_Some (r !! "competitor")
                    ↔ all a = true ∨ given (url a) = None)) found.
Proof.
  unfold select. destruct (all a) eqn:Hall.
  - rewrite scrape_all_spec. simpl. intros [= <-]. split; [simpl; lia|].
    assert (Hnamed : ∀ name u,
      let r := scrape_named urlopen html_callbacks name u in
      is_Some (r !! "url") ∧ is_Some (r !! "prices_found")
      ∧ is_Some (r !! "success")
      ∧ (is_Some (r !! "competitor") ↔ true = true ∨ given (url a) = None)).
    { intros name u. destruct (scrape_named_fields name u) as (Hu & Hp & Hs & Hc).
      simpl in *. rewrite Hu, Hc.
      split; [by eexists|]. split; [done|]. split; [done|].
      split; [by left|by eexists]. }
    repeat apply Forall_cons_2; [apply Hnamed..|apply Forall_nil_2].
  - destruct (given (url a)) as [u|] eqn:Hurl.
    + simpl. intros [= <-]. split; [simpl; lia|]. apply Forall_singleton.
      destruct (scrape_fields u) as (Hu & Hp & Hs & Hc). simpl in *.
      rewrite Hu, Hc.
      split; [by eexists|]. split; [done|]. split; [done|].
      split; [by intros [? ?]|by intros [?|?]].
    + destruct (given (competitor a)) as [name|]; [|done].
      destruct (given (dict_get (Py.lower name) COMPETITOR_URLS)) as [u|].
      * simpl. intros [= <-]. split; [simpl; lia|]. apply Forall_singleton.
        destruct (scrape_named_fields name u) as (Hu & Hp & Hs & Hc). simpl in *.
        rewrite Hu, Hc.
        split; [by eexists|]. split; [done|]. split; [done|].
        split; [by right|by eexists].
      * simpl. intros [= <-]. split; [simpl; lia|]. apply Forall_nil_2.
Qed.

End PricingSelectProperties.

Lemma pricing_main_competitor_witness :
  (PricingCLI.select (serves nested_price_markup) plain_callbacks
     (PricingCLI.mk_args None (Some "GameChanger"%string) false None)).2
  = Some [<["competitor" := VStr "GameChanger"]>
            (scrape_pricing_page (serves nested_price_markup) plain_callbacks
               "https://gc.com/pricing")].
Proof.
  exact (pricing_main_competitor (serves nested_price_markup) plain_callbacks
           (PricingCLI.mk_args None (Some "GameChanger"%string) false None)
           "GameChanger" eq_refl eq_refl eq_refl).
Defined.

Lemma pricing_main_results_witness :
  (length [scrape_pricing_page unreachable plain_callbacks "https://gc.com/pricing"]
   ≤ 3)%nat.
Proof.
  exact (proj1 (pricing_main_results unreachable plain_callbacks
           (PricingCLI.mk_args (Some "https://gc.com/pricing"%string) None false None)
           [scrape_pricing_page unreachable plain_callbacks "https://gc.com/pricing"]
           eq_refl)).
Defined.


(** ** The statistics of analyze_reviews *)

Lemma count_rating_step (total : Z) (d : gmap Z Z) (r : review) :
  (count_rating (total, d) r).1 = total + rating_of r
  ∧ ∀ k, (count_rating (total, d) r).2 !! k
         = (λ n, n + (if bool_decide (rating_of r = k) then 1 else 0)) <$> d !! k.
Proof.
  unfold count_rating. fold (rating_of r). split; [done|]. intros k. cbn [snd].
  destruct (d !! rating_of r) as [n|] eqn:Hd.
  - case_bool_decide as Hk.
    + subst k. by rewrite lookup_insert_eq, Hd.
    + rewrite lookup_insert_ne by done.
      destruct (d !! k); simpl; [f_equal; lia|done].
  - case_bool_decide as Hk.
    + subst k. by rewrite Hd.
    + destruct (d !! k); simpl; [f_equal; lia|done].
Qed.

Lemma rated_cons (k : Z) (r : review) (reviews : list review) :
  rated k (r :: reviews)
  = (if bool_decide (rating_of r = k) then 1 else 0) + rated k reviews.
Proof.
  unfold rated. simpl. case_bool_decide; simpl; lia.
Qed.

Lemma foldl_count_rating (reviews : list review) :
  ∀ (total : Z) (d : gmap Z Z),
    (foldl count_rating (total, d) reviews).1 = total + rating_sum reviews
    ∧ ∀ k, (foldl count_rating (total, d) reviews).2 !! k
           = (λ n, n + rated k reviews) <$> d !! k.
Proof.
  induction reviews as [|r reviews IH]; intros total d.
  - simpl. split; [lia|]. intros k. change (rated k []) with 0.
    destruct (d !! k); simpl; [f_equal; lia|done].
  - cbn [foldl].
    destruct (count_rating_step total d r) as [Htotal Hd].
    destruct (count_rating (total, d) r) as [total' d']. simpl in Htotal, Hd.
    destruct (IH total' d') as [IHtotal IHd]. split.
    + rewrite IHtotal, Htotal. simpl. lia.
    + intros k. rewrite IHd, Hd, rated_cons.
      destruct (d !! k); simpl; [f_equal; lia|done].
Qed.

Lemma initial_distribution (reviews : list review) (k : Z) :
  rating_distribution (initial_analysis reviews) !! k
  = if bool_decide (1 ≤ k ≤ 5) then Some 0 else None.
Proof.
  cbn [rating_distribution initial_analysis].
  destruct (decide (k = 1)) as [->|]; [done|].
  destruct (decide (k = 2)) as [->|]; [done|].
  destruct (decide (k = 3)) as [->|]; [done|].
  destruct (decide (k = 4)) as [->|]; [done|].
  destruct (decide (k = 5)) as [->|]; [done|].
  rewrite !lookup_insert_ne, lookup_singleton_ne by done.
  rewrite bool_decide_eq_false_2; [done|lia].
Qed.

Lemma analyze_reviews_statistics (reviews : list review) :
  reviews ≠ [] →
  let counted :=
    foldl count_rating (0, rating_distribution (initial_analysis reviews)) reviews in
  total_reviews (analyze_reviews reviews) = Z.of_nat (length reviews)
  ∧ average_rating (analyze_reviews reviews)
    = Round2 counted.1 (Z.of_nat (length reviews))
  ∧ rating_distribution (analyze_reviews reviews) = counted.2.
Proof.
  destruct reviews as [|r rest]; [done|]. intros _ counted. subst counted.
  unfold analyze_reviews. by destruct (foldl count_rating _ _).
Qed.

(** X13. The rating distribution always has exactly the keys 1 to 5, and
    bucket [k] holds the number of reviews whose rating is [k]. A review
    with another rating, or with none (taken as 0), is in no bucket and
    adds no key. *)
Theorem rating_distribution_counts (reviews : list review) (k : Z) :
  rating_distribution (analyze_reviews reviews) !! k
  = if bool_decide (1 ≤ k ≤ 5) then Some (rated k reviews) else None.
Proof.
  destruct (decide (reviews = [])) as [->|Hne].
  - change (analyze_reviews []) with (initial_analysis []).
    rewrite initial_distribution. by case_bool_decide.
  - destruct (analyze_reviews_statistics reviews Hne) as (_ & _ & ->).
    destruct (foldl_count_rating reviews 0
                (rating_distribution (initial_analysis reviews))) as [_ Hd].
    rewrite Hd, initial_distribution.
    case_bool_decide; simpl; [f_equal; lia|done].
Qed.

(** X14. [total_reviews] is the length of the list, and for a list that is
    not empty [average_rating] is [round(total / n, 2)] where [total] adds
    up every rating, a missing one as 0 and one outside 1 to 5 as it is,
    and [n] counts every review. *)
Theorem average_counts_every_review (reviews : list review) :
  total_reviews (analyze_reviews reviews) = Z.of_nat (length reviews)
  ∧ average_rating (analyze_reviews reviews)
    = match reviews with
      | [] => Int 0
      | _ :: _ => Round2 (rating_sum reviews) (Z.of_nat (length reviews))
      end.
Proof.
  destruct reviews as [|r rest] eqn:Hreviews; [done|]. rewrite <- Hreviews.
  assert (Hne : reviews ≠ []) by by rewrite Hreviews.
  destruct (analyze_reviews_statistics reviews Hne) as (-> & -> & _).
  destruct (foldl_count_rating reviews 0
              (rating_distribution (initial_analysis reviews))) as [-> _].
  split; [done|]. by f_equal.
Qed.

Lemma rated_in_range (reviews : list review) :
  rated 1 reviews + rated 2 reviews + rated 3 reviews + rated 4 reviews
  + rated 5 reviews
  = Z.of_nat (length (List.filter in_range reviews)).
Proof.
  induction reviews as [|r reviews IH]; [done|].
  rewrite !rated_cons. cbn [List.filter]. unfold in_range at 1.
  repeat case_bool_decide; simpl length; lia.
Qed.

(** X15. The five buckets add up to the number of reviews with a rating
    from 1 to 5, which is at most [total_reviews]; the two are equal exactly
    when every review has such a rating. *)
Theorem buckets_add_up (reviews : list review) :
  let a := analyze_reviews reviews in
  let bucket k := default 0 (rating_distribution a !! k) in
  bucket 1 + bucket 2 + bucket 3 + bucket 4 + bucket 5
  = Z.of_nat (length (List.filter in_range reviews))
  ∧ bucket 1 + bucket 2 + bucket 3 + bucket 4 + bucket 5 ≤ total_reviews a
  ∧ (bucket 1 + bucket 2 + bucket 3 + bucket 4 + bucket 5 = total_reviews a
     ↔ Forall (λ r, 1 ≤ rating_of r ≤ 5) reviews).
Proof.
  intros a bucket.
  assert (Hbucket : ∀ k, 1 ≤ k ≤ 5 → bucket k = rated k reviews).
  { intros k Hk. subst bucket a. cbv beta.
    destruct (decide (reviews = [])) as [->|Hne].
    - change (analyze_reviews []) with (initial_analysis []).
      rewrite initial_distribution, bool_decide_eq_true_2 by done. done.
    - destruct (analyze_reviews_statistics reviews Hne) as (_ & _ & ->).
      destruct (foldl_count_rating reviews 0
                  (rating_distribution (initial_analysis reviews))) as [_ Hd].
      rewrite Hd, initial_distribution, bool_decide_eq_true_2 by done.
      simpl. lia. }
  assert (Htotal : total_reviews a = Z.of_nat (length reviews)).
  { subst a. destruct (decide (reviews = [])) as [->|Hne]; [done|].
    by destruct (analyze_reviews_statistics reviews Hne) as (-> & _). }
  rewrite !Hbucket, rated_in_range, Htotal by lia.
  split; [done|].
  assert (Hfilter : (length (List.filter in_range reviews) ≤ length reviews)%nat
                    ∧ (length (List.filter in_range reviews) = length reviews
                       ↔ Forall (λ r, 1 ≤ rating_of r ≤ 5) reviews)).
  { clear. induction reviews as [|r reviews [IHle IHeq]];
      [split; [done|split; [by constructor|done]]|].
    cbn [List.filter]. destruct (in_range r) eqn:Hr; cbn [length].
    - apply bool_decide_eq_true in Hr.
      split; [lia|]. rewrite Forall_cons. split.
      + intros Hlen. split; [done|]. apply IHeq. lia.
      + intros [_ Hall]. apply IHeq in Hall. lia.
    - apply bool_decide_eq_false in Hr.
      split; [lia|]. rewrite Forall_cons. split; [lia|by intros [? _]]. }
  destruct Hfilter as [Hle Heq]. split; [lia|].
  rewrite <- Heq. split; lia.
Qed.

(** ** The keyword search of analyze_reviews *)

Lemma startswith_app (p s t : string) :
  Py.startswith p s = true → Py.startswith p (s +:+ t) = true.
Proof.
  revert s. induction p as [|a p IH]; intros [|b s]; simpl; try done.
  intros [Hab Hp]%andb_true_iff. by rewrite Hab, IH.
Qed.

Lemma contains_app_l (needle s t : string) :
  Py.contains needle s = true → Py.contains needle (s +:+ t) = true.
Proof.
  induction s as [|c s IH].
  - simpl. rewrite orb_false_r. destruct needle; [|done]. by destruct t.
  - cbn [Py.contains]. change (String c s +:+ t) with (String c (s +:+ t)).
    cbn [Py.contains]. intros [Hhere|Hlater]%orb_true_iff.
    + pose proof (startswith_app _ (String c s) t Hhere) as Happ.
      change (String c s +:+ t) with (String c (s +:+ t)) in Happ.
      by rewrite Happ.
    + rewrite (IH Hlater). apply orb_true_r.
Qed.

Lemma contains_app_r (needle s t : string) :
  Py.contains needle t = true → Py.contains needle (s +:+ t) = true.
Proof.
  intros Ht. induction s as [|c s IH]; [done|].
  change (String c s +:+ t) with (String c (s +:+ t)).
  cbn [Py.contains]. rewrite IH. apply orb_true_r.
Qed.

(** X16. A keyword that occurs in the content or in the title of a review,
    in any capitalisation, is found in the review; the title counts as much
    as the content, although only the content is stored. *)
Theorem keyword_in_content_or_title (keywords : list string) (keyword : string)
    (r : review) :
  keyword ∈ keywords →
  Py.contains keyword (Py.lower (default ""%string (content r))) = true
  ∨ Py.contains keyword (Py.lower (default ""%string (title r))) = true →
  mentions keywords r = true.
Proof.
  intros Hin Hfound. unfold mentions. apply existsb_exists.
  exists keyword. split; [by apply list_elem_of_In|].
  unfold haystack. rewrite !lower_app.
  destruct Hfound as [Hc|Ht].
  - by apply contains_app_l.
  - by apply contains_app_r, contains_app_r.
Qed.

Lemma keyword_in_content_or_title_witness :
  mentions complaint_keywords
    {| rating := Some 1; title := Some "CRASHES on launch"%string;
       content := None; author := None; version := None |}
  = true.
Proof.
  apply (keyword_in_content_or_title complaint_keywords "crash").
  - apply list_elem_of_lookup. exists 1%nat. reflexivity.
  - right. vm_compute. reflexivity.
Defined.

Lemma slice_to_length_min (n : nat) (s : string) :
  String.length (Py.slice_to n s) = (n `min` String.length s)%nat.
Proof.
  revert s. induction n as [|n IH]; intros [|c s]; simpl; try done.
  by rewrite IH.
Qed.

(** X17. The excerpt stored for a review has the length of its content, or
    200 when the content is longer; a content of at most 200 characters is
    stored whole, and a missing content gives the empty string. *)
Theorem excerpt_length (r : review) :
  String.length (excerpt r)
  = (200 `min` String.length (default ""%string (content r)))%nat
  ∧ ((String.length (default ""%string (content r)) ≤ 200)%nat
     ↔ excerpt r = default ""%string (content r)).
Proof.
  unfold excerpt. split; [apply slice_to_length_min|]. split.
  - apply slice_to_all.
  - intros Heq. rewrite <- Heq at 1. apply slice_to_length.
Qed.

Lemma take_app_prefix {A} (n : nat) (l more : list A) :
  take n l `prefix_of` take n (l ++ more).
Proof. rewrite take_app. by apply prefix_app_r. Qed.

(** X18. Reviews added at the end of the list never change what the three
    lists already hold: each list of the shorter input is a prefix of the
    list of the longer input. *)
Theorem later_reviews_only_append (reviews more : list review) :
  common_complaints (analyze_reviews reviews)
    `prefix_of` common_complaints (analyze_reviews (reviews ++ more))
  ∧ common_praises (analyze_reviews reviews)
      `prefix_of` common_praises (analyze_reviews (reviews ++ more))
  ∧ feature_requests (analyze_reviews reviews)
      `prefix_of` feature_requests (analyze_reviews (reviews ++ more)).
Proof.
  destruct (analyze_reviews_themes reviews) as (-> & -> & ->).
  destruct (analyze_reviews_themes (reviews ++ more)) as (-> & -> & ->).
  rewrite !List.filter_app, !fmap_app.
  repeat split; apply take_app_prefix.
Qed.

(** ** The loop of scrape_apple_reviews *)

(** X19. Entries that are no dictionary, or have no content key, have no
    part in the outcome of the loop: it runs as on the list without them,
    whether it returns or raises. *)
Theorem entries_without_content_are_skipped (entries : list json) :
  ∀ reviews : list scraped_review,
    normalize_entries entries reviews
    = normalize_entries (List.filter (is_dict_with "content") entries) reviews.
Proof.
  induction entries as [|entry rest IH]; intros reviews; [done|].
  cbn [normalize_entries List.filter].
  destruct (is_dict_with "content" entry) eqn:Hdict; [|apply IH].
  cbn [normalize_entries]. rewrite Hdict.
  destruct (normalize entry) as [f|review]; [done|]. simpl. apply IH.
Qed.

(** X20. The loop returns exactly when every entry with content can be
    normalized, and then it appends their normalized forms, one for each
    such entry and in the order of the feed. *)
Theorem loop_returns_normalized_in_order (entries : list json) :
  ∀ reviews result : list scraped_review,
    normalize_entries entries reviews = inr result
    ↔ ∃ found,
        result = reviews ++ found
        ∧ Forall2 (λ entry review, normalize entry = inr review)
            (List.filter (is_dict_with "content") entries) found.
Proof.
  induction entries as [|entry rest IH]; intros reviews result.
  - simpl. split.
    + intros [= <-]. exists []. by rewrite app_nil_r.
    + intros (found & -> & ->%Forall2_nil_inv_l). by rewrite app_nil_r.
  - cbn [normalize_entries List.filter].
    destruct (is_dict_with "content" entry); [|apply IH].
    destruct (normalize entry) as [f|review] eqn:Hnorm; simpl.
    + split; [done|].
      intros (found & _ & (review & found' & Hreview & _ & _)%Forall2_cons_inv_l).
      congruence.
    + rewrite IH. split.
      * intros (found & -> & Hall). exists (review :: found).
        split; [by rewrite <- app_assoc|by constructor].
      * intros (found & -> & (review' & found' & Hreview & Hall & ->)%Forall2_cons_inv_l).
        assert (review' = review) as -> by congruence.
        exists found'. by rewrite <- app_assoc.
Qed.

Lemma normalize_entries_length (entries : list json) :
  ∀ reviews result : list scraped_review,
    normalize_entries entries reviews = inr result →
    (length result ≤ length reviews + length entries)%nat.
Proof.
  induction entries as [|entry rest IH]; intros reviews result; simpl.
  - intros [= <-]. lia.
  - destruct (is_dict_with "content" entry).
    + destruct (normalize entry) as [f|review]; [done|]. simpl.
      intros Hrest%IH. rewrite length_app in Hrest. simpl in Hrest. lia.
    + intros Hrest%IH. lia.
Qed.

Lemma list_slice_to_length {A} (count : Z) (l : list A) :
  0 ≤ count → Z.of_nat (length (Py.list_slice_to count l)) ≤ count.
Proof.
  intros Hcount. unfold Py.list_slice_to.
  rewrite (proj2 (Z.leb_le 0 count) Hcount), length_take. lia.
Qed.

Section ScrapeAppleReviewsProperties.

Variable fetch_json : string → Py.result json.

(** X21. With a count that is not negative, [scrape_apple_reviews] never
    returns more than [count] reviews, whatever the feed holds. *)
Theorem at_most_count_reviews (app_id country : string) (count : Z) :
  0 ≤ count →
  Z.of_nat (length (scrape_apple_reviews fetch_json app_id country count).1)
  ≤ count.
Proof.
  intros Hcount. unfold scrape_apple_reviews.
  destruct (Reviews.scrape_body fetch_json app_id country count)
    as [f|result] eqn:Hbody; [simpl; lia|].
  unfold Reviews.scrape_body, Py.bind in Hbody.
  destruct (fetch_json _) as [e|data]; [done|].
  destruct (feed_entries data) as [f|entries]; [done|].
  destruct (slice_entries entries count) as [f|first_entries] eqn:Hslice; [done|].
  apply normalize_entries_length in Hbody. simpl in Hbody |- *.
  assert (Z.of_nat (length first_entries) ≤ count); [|lia].
  destruct entries as [| | | | s|l|]; try done; injection Hslice as <-.
  - rewrite length_fmap. by apply list_slice_to_length.
  - by apply list_slice_to_length.
Qed.

(** X22. A document without feed key, or whose feed has no entry key, is
    no error: the function returns the empty list and prints nothing. *)
Theorem missing_feed_or_entry (app_id country : string) (count : Z)
    (items : list (string * json)) :
  fetch_json (feed_url app_id country) = inr (JDict items) →
  lookup_item "feed" items = None
  ∨ (∃ feed_items, lookup_item "feed" items = Some (JDict feed_items)
                   ∧ lookup_item "entry" feed_items = None) →
  scrape_apple_reviews fetch_json app_id country count = ([], []).
Proof.
  intros Hfetch Hmissing.
  assert (Hentries : feed_entries (JDict items) = inr (JList [])).
  { unfold feed_entries. simpl.
    destruct Hmissing as [->|(feed_items & -> & Hentry)]; simpl; [done|].
    by rewrite Hentry. }
  unfold scrape_apple_reviews, Reviews.scrape_body. rewrite Hfetch. simpl.
  rewrite Hentries. simpl. unfold Py.list_slice_to.
  by destruct (0 <=? count); rewrite take_nil.
Qed.

(** X23. Only an array under feed.entry can give reviews. A single entry
    object, a number or null there raises on slicing, so the function
    returns the empty list and prints that error; a string gives the empty
    list without error. *)
Theorem entry_must_be_a_list (app_id country : string) (count : Z)
    (data entries : json) :
  fetch_json (feed_url app_id country) = inr data →
  feed_entries data = inr entries →
  match entries with
  | JList _ => True
  | JStr _ => scrape_apple_reviews fetch_json app_id country count = ([], [])
  | _ => scrape_apple_reviews fetch_json app_id country count
         = ([], [ErrorScrapingReviews (NotSliceable entries)])
  end.
Proof.
  intros Hfetch Hentries.
  unfold scrape_apple_reviews, Reviews.scrape_body. rewrite Hfetch. simpl.
  rewrite Hentries. simpl.
  destruct entries as [| | | | s|l|]; try done. simpl.
  assert (Hskip : ∀ chars : list ascii,
    normalize_entries ((λ c, JStr (String c EmptyString)) <$> chars) [] = inr []).
  { intros chars. induction chars as [|c chars IH]; [done|exact IH]. }
  by rewrite Hskip.
Qed.

End ScrapeAppleReviewsProperties.

Lemma at_most_count_reviews_witness :
  0 ≤ 2
  ∧ Z.of_nat (length (scrape_apple_reviews (λ _, inr feed_with_bad_rating)
                        "393048976" "us" 2).1) ≤ 2.
Proof.
  split; [lia|].
  apply (at_most_count_reviews (λ _, inr feed_with_bad_rating)
           "393048976"%string "us"%string 2).
  lia.
Defined.

Lemma missing_feed_or_entry_witness :
  scrape_apple_reviews (λ _, inr (JDict [("feed"%string, JDict [])]))
    "393048976" "us" 50
  = ([], []).
Proof.
  apply (missing_feed_or_entry (λ _, inr (JDict [("feed"%string, JDict [])]))
           "393048976"%string "us"%string 50 [("feed"%string, JDict [])] eq_refl).
  right. exists []. split; reflexivity.
Defined.

Lemma entry_must_be_a_list_witness :
  scrape_apple_reviews
    (λ _, inr (JDict [("feed"%string,
                       JDict [("entry"%string, feed_entry "5" "Love it")])]))
    "393048976" "us" 50
  = ([], [ErrorScrapingReviews (NotSliceable (feed_entry "5" "Love it"))]).
Proof.
  exact (entry_must_be_a_list
           (λ _, inr (JDict [("feed"%string,
                              JDict [("entry"%string, feed_entry "5" "Love it")])]))
           "393048976"%string "us"%string 50
           (JDict [("feed"%string,
                    JDict [("entry"%string, feed_entry "5" "Love it")])])
           (feed_entry "5" "Love it") eq_refl eq_refl).
Defined.

(** ** The command line of the review script *)

(** X24. The app argument is looked up by its lower-case form, so a known
    name resolves in any capitalisation; anything else is used as it was
    typed; without argument (or with an empty one) the id of teamsnap is
    used. The lookup never raises. *)
Theorem app_id_resolution (app : option string) :
  ReviewsCLI.app_id app
  = inr match Cli.given app with
        | None => "393048976"%string
        | Some name =>
            if bool_decide (Py.lower name = "teamsnap"%string) then "393048976"%string
            else if bool_decide (Py.lower name = "gamechanger"%string)
            then "476016817"%string
            else if bool_decide (Py.lower name = "sportsengine"%string)
            then "521594269"%string
            else name
        end.
Proof.
  unfold ReviewsCLI.app_id. destruct (Cli.given app) as [name|]; [|done].
  unfold ReviewsCLI.COMPETITOR_APPS. cbn [Cli.dict_get].
  rewrite !(bool_decide_ext (_ = Py.lower name) (Py.lower name = _)) by done.
  by repeat case_bool_decide.
Qed.

(** ** What makes a scrape fail *)





Section ScrapeOutcome.

Variable urlopen : string → Py.result string.
Variable html_callbacks : string → list html_event * option Py.exn.



End ScrapeOutcome.



Lemma loop_returns_normalized_in_order_witness :
  ∃ found,
    [mk_scraped 5 (JStr "Review") (JStr "Love it") (JStr "") (JStr "")] = [] ++ found
    ∧ Forall2 (λ entry review, normalize entry = inr review)
        (List.filter (is_dict_with "content") [JNull; feed_entry "5" "Love it"])
        found.
Proof.
  apply (proj1 (loop_returns_normalized_in_order
                  [JNull; feed_entry "5" "Love it"] []
                  [mk_scraped 5 (JStr "Review") (JStr "Love it") (JStr "") (JStr "")])).
  vm_compute. reflexivity.
Defined.
